(** * TrustCircle front end (src/frontend/src/App.jsx)

    A shallow embedding of the wallet connection, the reputation
    aggregation ([loadUserData]), the mint workflow and the dashboard's
    view projection, followed by the properties of the specification that
    concern them.

    JavaScript values are modelled as the code has them:
    - a [bigint] returned by ethers (uint256, uint8) is a [Z];
    - a JavaScript [Number] is an IEEE-754 binary64 [float];
    - strings are [string]; [undefined]/[null] is [None];
    - an [async] function is a computation over the session state and an
      event trace that either completes normally or throws. *)

From Stdlib Require Import ZArith Zdivisibility String List Ascii Bool Lia.
From Stdlib Require Import Floats.PrimFloat Floats.SpecFloat Floats.FloatOps
  Floats.FloatAxioms.
From Stdlib Require Import DecimalString DecimalZ DecimalN DecimalPos.
Import ListNotations.

Local Open Scope string_scope.
Local Open Scope Z_scope.

(* ===================================================================== *)
(** * JavaScript numbers and strings *)
(* ===================================================================== *)

Module JS.

(** [Number(b)] for a bigint [b]: the binary64 value nearest to [b]
    (ties to even), infinite beyond the binary64 range. *)
Definition Number (b : Z) : float :=
  SF2Prim (binary_normalize prec emax b 0 false).

(** [BigInt.prototype.toString()], radix 10. *)
Definition bigint_toString (b : Z) : string :=
  NilZero.string_of_int (Z.to_int b).

(** [String(n)] for an array length or another small non-negative integer. *)
Definition nat_toString (n : nat) : string :=
  NilZero.string_of_uint (Nat.to_uint n).

(** The array index a Number denotes when used as a property key
    ([arr[x]]): [ToString(x)] must be the canonical form of an integer in
    [0, 2^32 - 2].  [-0] prints as ["0"], so it denotes index 0; a
    fraction, a negative number, an infinity or NaN denotes none. *)
Definition array_index (x : float) : option nat :=
  match Prim2SF x with
  | S754_zero _ => Some 0%nat
  | S754_finite false m e =>
      if 0 <=? e then
        let v := Z.pos m * 2 ^ e in
        if v <? 2 ^ 32 - 1 then Some (Z.to_nat v) else None
      else
        let d := 2 ^ (- e) in
        if Z.pos m mod d =? 0 then
          let v := Z.pos m / d in
          if v <? 2 ^ 32 - 1 then Some (Z.to_nat v) else None
        else None
  | _ => None
  end.

(** [arr[x]] on an array literal: the element, or [undefined]. *)
Definition get {A : Type} (arr : list A) (x : float) : option A :=
  match array_index x with
  | Some i => nth_error arr i
  | None => None
  end.

(** A value interpolated in a template literal: [`${v}`]. *)
Definition template (v : option string) : string :=
  match v with
  | Some s => s
  | None => "undefined"
  end.

(** A value used as a JSX child: [undefined] renders nothing. *)
Definition jsx_child (v : option string) : string :=
  match v with
  | Some s => s
  | None => ""
  end.

Definition is_digit (c : ascii) : bool :=
  let n := nat_of_ascii c in (48 <=? n)%nat && (n <=? 57)%nat.

Definition digit_value (c : ascii) : Z := Z.of_nat (nat_of_ascii c) - 48.

Definition digits_value (ds : list ascii) : Z :=
  fold_left (fun acc c => 10 * acc + digit_value c) ds 0.

(** The binary64 value nearest to the rational [n / d] ([d > 0]), ties to
    even: what a decimal literal with numerator [n] and denominator
    [d = 10^k] evaluates to. *)
Definition nearest_quotient (negative : bool) (n d : Z) : float :=
  match n, d with
  | Z.pos pn, Z.pos pd =>
      SF2Prim (SFdiv prec emax (S754_finite negative pn 0) (S754_finite false pd 0))
  | _, _ => SF2Prim (S754_zero negative)
  end.

(** [parseFloat(s)] on the strings this program passes to it: an optional
    sign, decimal digits and an optional fraction, with nothing after.
    Strings outside that fragment (white space, exponents, [Infinity],
    trailing characters) are not modelled: the result is [None]. *)
Definition parseFloat (s : string) : option float :=
  let cs := list_ascii_of_string s in
  let '(negative, body) :=
    match cs with
    | "-"%char :: r => (true, r)
    | "+"%char :: r => (false, r)
    | _ => (false, cs)
    end in
  let fix span (l : list ascii) : list ascii * list ascii :=
    match l with
    | c :: r => if is_digit c then let '(a, b) := span r in (c :: a, b) else ([], l)
    | [] => ([], [])
    end in
  let '(whole, rest) := span body in
  match rest with
  | [] =>
      match whole with
      | [] => None
      | _ => Some (nearest_quotient negative (digits_value whole) 1)
      end
  | "."%char :: r =>
      let '(frac, rest') := span r in
      match rest', (whole ++ frac)%list with
      | [], _ :: _ =>
          Some (nearest_quotient negative (digits_value (whole ++ frac))
                                 (10 ^ Z.of_nat (List.length frac)))
      | _, _ => None
      end
  | _ => None
  end.

(** [x.toFixed(2)].  For a finite [x] below 10^21 in magnitude: the
    integer [n] nearest to [|x| * 100] (the larger one on a tie), printed
    with two fractional digits and the sign of [x].  At 10^21 and above
    JavaScript switches to exponent notation, which is not modelled
    ([None]). *)
Definition toFixed2 (x : float) : option string :=
  let render (negative : bool) (n : Z) : string :=
    let m := list_ascii_of_string (bigint_toString n) in
    let m := (repeat "0"%char (3 - List.length m) ++ m)%list in
    let k := List.length m in
    (if negative then "-" else "")
      ++ string_of_list_ascii (firstn (k - 2) m)
      ++ "." ++ string_of_list_ascii (skipn (k - 2) m) in
  match Prim2SF x with
  | S754_nan => Some "NaN"
  | S754_infinity false => Some "Infinity"
  | S754_infinity true => Some "-Infinity"
  | S754_zero _ => Some "0.00"
  | S754_finite negative m e =>
      if 0 <=? e then
        let v := Z.pos m * 2 ^ e in
        if v <? 10 ^ 21 then Some (render negative (v * 100)) else None
      else
        let d := 2 ^ (- e) in
        if Z.pos m / d <? 10 ^ 21
        then Some (render negative ((200 * Z.pos m + d) / (2 * d)))
        else None
  end.

End JS.

(* ===================================================================== *)
(** * ethers: [formatEther] *)
(* ===================================================================== *)

Module Ethers.

(** Trim the whole component, leaving at least one zero:
    [while (str[0] === "0" && str[1] !== ".") str = str.substring(1)]. *)
Fixpoint trim_whole (str : list ascii) : list ascii :=
  match str with
  | "0"%char :: rest =>
      match rest with
      | "."%char :: _ => str
      | _ => trim_whole rest
      end
  | _ => str
  end.

(** Trim the decimal component, leaving at least one zero; the argument
    is the string reversed:
    [while (str[str.length - 1] === "0" && str[str.length - 2] !== ".")]. *)
Fixpoint trim_decimal_rev (rts : list ascii) : list ascii :=
  match rts with
  | "0"%char :: rest =>
      match rest with
      | "."%char :: _ => rts
      | _ => trim_decimal_rev rest
      end
  | _ => rts
  end.

(** The block of zeros the library pads from. *)
Definition Zeros : list ascii := repeat "0"%char 128.

(** Pad out to the whole component:
    [while (str.length <= decimals) str = Zeros + str]. *)
Fixpoint pad_whole (fuel decimals : nat) (str : list ascii) : list ascii :=
  match fuel with
  | O => str
  | S fuel' =>
      if (List.length str <=? decimals)%nat
      then pad_whole fuel' decimals (Zeros ++ str)%list
      else str
  end.

(** [formatUnits(value, decimals)] for [decimals > 0], the library
    routine behind [formatEther]: print the magnitude, pad it with zeros
    to more than [decimals] digits, insert the decimal point, trim the
    zeros on both sides down to one, put the sign back.  (The library
    first checks that the value fits 512 bits, which a uint256 does.) *)
Definition formatUnits (value : Z) (decimals : nat) : string :=
  let negative := if value <? 0 then "-" else "" in
  let str := list_ascii_of_string (JS.bigint_toString (Z.abs value)) in
  let str := pad_whole (S decimals) decimals str in
  let index := (List.length str - decimals)%nat in
  let str := (firstn index str ++ "."%char :: skipn index str)%list in
  let str := trim_whole str in
  let str := rev (trim_decimal_rev (rev str)) in
  negative ++ string_of_list_ascii str.

(** [ethers.formatEther(wei)]. *)
Definition formatEther (wei : Z) : string := formatUnits wei 18.

End Ethers.

(* ===================================================================== *)
(** * Data model *)
(* ===================================================================== *)

Definition Address := string.

(** The tuple [getReputationData] returns (REPUTATION_NFT_ABI): five
    uint256 and a uint8, decoded by ethers as bigints. *)
Record ReputationData := mkReputationData {
  data_score : Z;
  data_loansCompleted : Z;
  data_totalBorrowed : Z;
  data_totalRepaid : Z;
  data_lastUpdated : Z;
  data_currentTier : Z
}.

(** The object [loadUserData] passes to [setReputationData]. *)
Record Snapshot := mkSnapshot {
  score : float;
  tier : float;
  loansCompleted : float;
  totalBorrowed : string;
  totalRepaid : string;
  borrowingLimit : string;
  interestRate : float;
  trustScore : float;
  circles : nat
}.

Inductive Provider := BrowserProvider.

Inductive Signer := JsonRpcSigner.

Inductive ABI := REPUTATION_NFT_ABI | LENDING_POOL_ABI | TRUST_CIRCLE_ABI.

(** [new ethers.Contract(target, abi, runner)]. *)
Record Contract := mkContract {
  target : string;
  abi : ABI;
  runner : Signer
}.

(** [{ reputationNFT, lendingPool, trustCircle }]. *)
Record Contracts := mkContracts {
  reputationNFT : Contract;
  lendingPool : Contract;
  trustCircle : Contract
}.

(** The pending transaction [mint] resolves to. *)
Record Tx := mkTx { tx_hash : string }.

(** The component's state: the [useState] cells of [App] that the three
    workflows read or write. *)
Record Session := mkSession {
  account : option Address;
  provider : option Provider;
  signer : option Signer;
  contracts : option Contracts;
  reputationData : option Snapshot;
  loading : bool
}.

(** The initial values of the [useState] cells. *)
Definition initial_session : Session :=
  mkSession None None None None None false.

(** What a JavaScript [throw] or a rejected promise carries. *)
Inductive jsError :=
  | ReferenceError (msg : string)
  | TypeError (msg : string)
  | ExternalError (msg : string).

(** How an expression or an awaited promise completes. *)
Inductive outcome (A : Type) :=
  | Normal (a : A)
  | Throw (e : jsError).
Arguments Normal {A} a.
Arguments Throw {A} e.

(** The asynchronous requests the program awaits. *)
Inductive call :=
  | eth_requestAccounts
  | getSigner
  | getReputationScore (user : option Address)
  | getReputationData (user : option Address)
  | getBorrowingLimit (borrower : option Address)
  | getInterestRate (borrower : option Address)
  | getTrustScore (user : option Address)
  | getUserCircles (user : option Address)
  | mint (user : option Address)
  | wait (tx : Tx).

(** The observable steps of a run, in the order they happen. *)
Inductive event :=
  | Issued (c : call)
  | Settled (c : call) (fulfilled : bool)
  | Alert (msg : string)
  | ConsoleError (label : string) (e : jsError)
  | SetLoading (b : bool)
  | SetProvider (p : Provider)
  | SetSigner (s : Signer)
  | SetAccount (a : option Address)
  | SetContracts (c : Contracts)
  | SetReputationData (s : Snapshot).

(** The external collaborators: the injected wallet and the three
    services.  Every request of a run is answered by one of these; within
    one run of a workflow no request is made twice, so an answer per
    request describes every behaviour of the environment. *)
Record Env := mkEnv {
  (** [window.ethereum]: [None] when [typeof window.ethereum] is
      ['undefined']; otherwise whether it is a usable EIP-1193 provider
      (the [BrowserProvider] constructor throws when it is not). *)
  window_ethereum : option bool;
  on_eth_requestAccounts : outcome (list Address);
  on_getSigner : outcome Signer;
  on_getReputationScore : option Address -> outcome Z;
  on_getReputationData : option Address -> outcome ReputationData;
  on_getBorrowingLimit : option Address -> outcome Z;
  on_getInterestRate : option Address -> outcome Z;
  on_getTrustScore : option Address -> outcome Z;
  on_getUserCircles : option Address -> outcome (list Z);
  on_mint : option Address -> outcome Tx;
  on_wait : Tx -> outcome unit
}.

(* ===================================================================== *)
(** * Asynchronous computations *)
(* ===================================================================== *)

(** A run of a computation: how it completed, the session state it left
    and the events it made, oldest first. *)
Record Run (A : Type) := mkRun {
  result : outcome A;
  final : Session;
  events : list event
}.
Arguments mkRun {A} result final events.
Arguments result {A} r.
Arguments final {A} r.
Arguments events {A} r.

(** A computation runs from a session state and completes normally or
    throws.  State changes and events made before a throw persist, as in
    JavaScript. *)
Definition M (A : Type) : Type := Session -> Run A.

Definition ret {A} (a : A) : M A := fun s => mkRun (Normal a) s [].

Definition throw {A} (e : jsError) : M A := fun s => mkRun (Throw e) s [].

(** The events [before] came first. *)
Definition after {A} (before : list event) (r : Run A) : Run A :=
  match r with
  | mkRun o s ev => mkRun o s (before ++ ev)%list
  end.

Definition bind {A B} (m : M A) (k : A -> M B) : M B :=
  fun s =>
    match m s with
    | mkRun (Normal a) s' ev => after ev (k a s')
    | mkRun (Throw e) s' ev => mkRun (Throw e) s' ev
    end.

(** [try { body } catch (error) { handler }]. *)
Definition try_catch {A} (body : M A) (handler : jsError -> M A) : M A :=
  fun s =>
    match body s with
    | mkRun (Normal a) s' ev => mkRun (Normal a) s' ev
    | mkRun (Throw e) s' ev => after ev (handler e s')
    end.

Declare Scope js_scope.
Delimit Scope js_scope with js.
Notation "x <- m ;; k" := (bind m (fun x => k))
  (at level 61, m at next level, right associativity) : js_scope.
Notation "m ;; k" := (bind m (fun _ => k))
  (at level 61, right associativity) : js_scope.
Local Open Scope js_scope.

Definition emit (ev : event) : M unit := fun s => mkRun (Normal tt) s [ev].

Definition update (f : Session -> Session) : M unit :=
  fun s => mkRun (Normal tt) (f s) [].

(** The state the enclosing render captured. *)
Definition captured : M Session := fun s => mkRun (Normal s) s [].

(** [await request]: the request is issued, later settles, and the
    computation resumes with its value or throws its rejection. *)
Definition await {A} (c : call) (answer : outcome A) : M A :=
  emit (Issued c) ;;
  match answer with
  | Normal a => emit (Settled c true) ;; ret a
  | Throw e => emit (Settled c false) ;; throw e
  end.

Definition alert (msg : string) : M unit := emit (Alert msg).

Definition console_error (label : string) (e : jsError) : M unit :=
  emit (ConsoleError label e).

Definition setLoading (b : bool) : M unit :=
  emit (SetLoading b) ;;
  update (fun s => mkSession (account s) (provider s) (signer s) (contracts s)
                             (reputationData s) b).

Definition setProvider (p : Provider) : M unit :=
  emit (SetProvider p) ;;
  update (fun s => mkSession (account s) (Some p) (signer s) (contracts s)
                             (reputationData s) (loading s)).

Definition setSigner (g : Signer) : M unit :=
  emit (SetSigner g) ;;
  update (fun s => mkSession (account s) (provider s) (Some g) (contracts s)
                             (reputationData s) (loading s)).

Definition setAccount (a : option Address) : M unit :=
  emit (SetAccount a) ;;
  update (fun s => mkSession a (provider s) (signer s) (contracts s)
                             (reputationData s) (loading s)).

Definition setContracts (c : Contracts) : M unit :=
  emit (SetContracts c) ;;
  update (fun s => mkSession (account s) (provider s) (signer s) (Some c)
                             (reputationData s) (loading s)).

Definition setReputationData (d : Snapshot) : M unit :=
  emit (SetReputationData d) ;;
  update (fun s => mkSession (account s) (provider s) (signer s) (contracts s)
                             (Some d) (loading s)).

(** [left || name] where [name] is a [const] of the same block that is
    still being initialised: a truthy [left] short-circuits; otherwise
    reading [name] in its temporal dead zone throws. *)
Definition or_uninitialized {A} (left : option A) (name : string) : M (option A) :=
  match left with
  | Some v => ret (Some v)
  | None => throw (ReferenceError ("Cannot access '" ++ name ++ "' before initialization"))
  end.

(** [obj.prop] where [obj] may be [null]. *)
Definition property {A B} (obj : option A) (prop : A -> B) (name : string) : M B :=
  match obj with
  | Some o => ret (prop o)
  | None => throw (TypeError ("Cannot read properties of null (reading '" ++ name ++ "')"))
  end.

(** [new ethers.BrowserProvider(ethereum)]: throws on an object that is
    not an EIP-1193 provider. *)
Definition new_BrowserProvider (usable : bool) : M Provider :=
  if usable then ret BrowserProvider
  else throw (ExternalError "invalid EIP-1193 provider").

(* ===================================================================== *)
(** * The component *)
(* ===================================================================== *)

Definition CONTRACT_ADDRESSES_reputationNFT : string := "0x...".
Definition CONTRACT_ADDRESSES_lendingPool : string := "0x...".
Definition CONTRACT_ADDRESSES_trustCircle : string := "0x...".

Definition tierNames : list string :=
  ["Bronze"; "Silver"; "Gold"; "Platinum"; "Diamond"].
Definition tierColors : list string :=
  ["#CD7F32"; "#C0C0C0"; "#FFD700"; "#E5E4E2"; "#B9F2FF"].

Section App.

Variable env : Env.

(** [loadUserData(address, contractsObj)], lines 85-113. *)
Definition loadUserData (address : option Address)
    (contractsObj : option Contracts) : M unit :=
  try_catch
    (contracts <- or_uninitialized contractsObj "contracts" ;;
     match contracts with
     | None => ret tt
     | Some contracts =>
         score <- await (getReputationScore address)
                        (on_getReputationScore env address) ;;
         if score >? 0 then
           data <- await (getReputationData address)
                         (on_getReputationData env address) ;;
           borrowingLimit <- await (getBorrowingLimit address)
                                   (on_getBorrowingLimit env address) ;;
           interestRate <- await (getInterestRate address)
                                 (on_getInterestRate env address) ;;
           trustScore <- await (getTrustScore address)
                               (on_getTrustScore env address) ;;
           circles <- await (getUserCircles address)
                            (on_getUserCircles env address) ;;
           setReputationData
             {| score := JS.Number (data_score data);
                tier := JS.Number (data_currentTier data);
                loansCompleted := JS.Number (data_loansCompleted data);
                totalBorrowed := Ethers.formatEther (data_totalBorrowed data);
                totalRepaid := Ethers.formatEther (data_totalRepaid data);
                borrowingLimit := Ethers.formatEther borrowingLimit;
                interestRate := (JS.Number interestRate / 100)%float;
                trustScore := JS.Number trustScore;
                circles := List.length circles |}
         else ret tt
     end)
    (fun error => console_error "Error loading user data:" error).

(** [connectWallet()], lines 52-82. *)
Definition connectWallet : M unit :=
  try_catch
    (match window_ethereum env with
     | None => alert "Please install MetaMask!"
     | Some usable =>
         setLoading true ;;
         provider <- new_BrowserProvider usable ;;
         accounts <- await eth_requestAccounts (on_eth_requestAccounts env) ;;
         signer <- await getSigner (on_getSigner env) ;;
         setProvider provider ;;
         setSigner signer ;;
         setAccount (hd_error accounts) ;;
         let reputationNFT :=
           mkContract CONTRACT_ADDRESSES_reputationNFT REPUTATION_NFT_ABI signer in
         let lendingPool :=
           mkContract CONTRACT_ADDRESSES_lendingPool LENDING_POOL_ABI signer in
         let trustCircle :=
           mkContract CONTRACT_ADDRESSES_trustCircle TRUST_CIRCLE_ABI signer in
         setContracts (mkContracts reputationNFT lendingPool trustCircle) ;;
         loadUserData (hd_error accounts)
                      (Some (mkContracts reputationNFT lendingPool trustCircle)) ;;
         setLoading false
     end)
    (fun error =>
       console_error "Error connecting wallet:" error ;;
       setLoading false).

(** [mintReputation()], lines 116-129.  [contracts] and [account] are
    the state cells as the handler's render captured them. *)
Definition mintReputation : M unit :=
  state <- captured ;;
  try_catch
    (setLoading true ;;
     reputationNFT <- property (contracts state) reputationNFT "reputationNFT" ;;
     tx <- await (mint (account state)) (on_mint env (account state)) ;;
     await (wait tx) (on_wait env tx) ;;
     loadUserData (account state) None ;;
     setLoading false ;;
     alert "Reputation NFT minted successfully!")
    (fun error =>
       console_error "Error minting:" error ;;
       setLoading false ;;
       alert "Error minting NFT").

End App.

(** ** The dashboard's reputation card, lines 208-262 *)

(** The texts of the card that are derived rather than shown as
    stored.  A monetary text is [None] where [parseFloat] or [toFixed]
    leaves the modelled fragment. *)
Record Card := mkCard {
  score_circle_background : string;
  score_circle_boxShadow : string;
  tier_badge_color : option string;
  tier_badge : string;
  total_borrowed : option string;
  total_repaid : option string;
  trust_circles : string;
  borrowing_limit : option string
}.

(** [{parseFloat(amount).toFixed(2)} ETH]. *)
Definition eth_amount (amount : string) : option string :=
  match JS.parseFloat amount with
  | Some x => option_map (fun s => s ++ " ETH") (JS.toFixed2 x)
  | None => None
  end.

(** Evaluating the card's expressions for a non-null [reputationData]. *)
Definition render_card (reputationData : Snapshot) : outcome Card :=
  let color := JS.get tierColors (tier reputationData) in
  Normal
    {| score_circle_background :=
         "linear-gradient(135deg, " ++ JS.template color ++ ", "
           ++ JS.template color ++ "99)";
       score_circle_boxShadow := "0 0 40px " ++ JS.template color ++ "66";
       tier_badge_color := color;
       tier_badge :=
         JS.jsx_child (JS.get tierNames (tier reputationData)) ++ " Tier";
       total_borrowed := eth_amount (totalBorrowed reputationData);
       total_repaid := eth_amount (totalRepaid reputationData);
       trust_circles := JS.nat_toString (circles reputationData);
       borrowing_limit := eth_amount (borrowingLimit reputationData) |}.

(* ===================================================================== *)
(** * Observations on runs *)
(* ===================================================================== *)

(** The request a call makes, without its arguments. *)
Inductive method :=
  | m_eth_requestAccounts | m_getSigner
  | m_getReputationScore | m_getReputationData
  | m_getBorrowingLimit | m_getInterestRate
  | m_getTrustScore | m_getUserCircles
  | m_mint | m_wait.

Definition method_of (c : call) : method :=
  match c with
  | eth_requestAccounts => m_eth_requestAccounts
  | getSigner => m_getSigner
  | getReputationScore _ => m_getReputationScore
  | getReputationData _ => m_getReputationData
  | getBorrowingLimit _ => m_getBorrowingLimit
  | getInterestRate _ => m_getInterestRate
  | getTrustScore _ => m_getTrustScore
  | getUserCircles _ => m_getUserCircles
  | mint _ => m_mint
  | wait _ => m_wait
  end.

Definition method_eqb (a b : method) : bool :=
  match a, b with
  | m_eth_requestAccounts, m_eth_requestAccounts
  | m_getSigner, m_getSigner
  | m_getReputationScore, m_getReputationScore
  | m_getReputationData, m_getReputationData
  | m_getBorrowingLimit, m_getBorrowingLimit
  | m_getInterestRate, m_getInterestRate
  | m_getTrustScore, m_getTrustScore
  | m_getUserCircles, m_getUserCircles
  | m_mint, m_mint
  | m_wait, m_wait => true
  | _, _ => false
  end.

(** The reads of the three services. *)
Definition is_read (m : method) : bool :=
  match m with
  | m_getReputationScore | m_getReputationData | m_getBorrowingLimit
  | m_getInterestRate | m_getTrustScore | m_getUserCircles => true
  | _ => false
  end.

(** The reads made once the score is known to be positive. *)
Definition is_dependent_read (m : method) : bool :=
  match m with
  | m_getReputationData | m_getBorrowingLimit | m_getInterestRate
  | m_getTrustScore | m_getUserCircles => true
  | _ => false
  end.

(** The requests a run issued, in order. *)
Fixpoint issued (evs : list event) : list method :=
  match evs with
  | Issued c :: rest => method_of c :: issued rest
  | _ :: rest => issued rest
  | [] => []
  end.

(** A Snapshot is published: [setReputationData] is called. *)
Definition is_publish (ev : event) : bool :=
  match ev with SetReputationData _ => true | _ => false end.

Definition published (evs : list event) : bool := existsb is_publish evs.

Definition is_console_error (ev : event) : bool :=
  match ev with ConsoleError _ _ => true | _ => false end.

Definition is_rejection (ev : event) : bool :=
  match ev with Settled _ false => true | _ => false end.

(** The alerts a run showed, in order. *)
Fixpoint alerts (evs : list event) : list string :=
  match evs with
  | Alert msg :: rest => msg :: alerts rest
  | _ :: rest => alerts rest
  | [] => []
  end.

Definition rejects {A} (answer : outcome A) : bool :=
  match answer with Normal _ => false | Throw _ => true end.

(** ** The scenario of the specification *)

Definition user : Address := "0x52908400098527886E0F7030069857D2E4169EE7".

Definition scenario_contracts : Contracts :=
  mkContracts
    (mkContract CONTRACT_ADDRESSES_reputationNFT REPUTATION_NFT_ABI JsonRpcSigner)
    (mkContract CONTRACT_ADDRESSES_lendingPool LENDING_POOL_ABI JsonRpcSigner)
    (mkContract CONTRACT_ADDRESSES_trustCircle TRUST_CIRCLE_ABI JsonRpcSigner).

Definition scenario_record : ReputationData :=
  {| data_score := 750;
     data_loansCompleted := 3;
     data_totalBorrowed := 5000000000000000000;
     data_totalRepaid := 4800000000000000000;
     data_lastUpdated := 1700000000;
     data_currentTier := 2 |}.

Definition scenario_env : Env :=
  {| window_ethereum := Some true;
     on_eth_requestAccounts := Normal [user];
     on_getSigner := Normal JsonRpcSigner;
     on_getReputationScore := fun _ => Normal 750;
     on_getReputationData := fun _ => Normal scenario_record;
     on_getBorrowingLimit := fun _ => Normal 2000000000000000000;
     on_getInterestRate := fun _ => Normal 850;
     on_getTrustScore := fun _ => Normal 120;
     on_getUserCircles := fun _ => Normal [7; 12];
     on_mint := fun _ => Normal (mkTx "0x01");
     on_wait := fun _ => Normal tt |}.

(** The scenario with another raw interest rate. *)
Definition with_rate (raw : Z) : Env :=
  {| window_ethereum := Some true;
     on_eth_requestAccounts := Normal [user];
     on_getSigner := Normal JsonRpcSigner;
     on_getReputationScore := fun _ => Normal 750;
     on_getReputationData := fun _ => Normal scenario_record;
     on_getBorrowingLimit := fun _ => Normal 2000000000000000000;
     on_getInterestRate := fun _ => Normal raw;
     on_getTrustScore := fun _ => Normal 120;
     on_getUserCircles := fun _ => Normal [7; 12];
     on_mint := fun _ => Normal (mkTx "0x01");
     on_wait := fun _ => Normal tt |}.

(** The session once the wallet is connected, before any Snapshot. *)
Definition connected_session : Session :=
  mkSession (Some user) (Some BrowserProvider) (Some JsonRpcSigner)
            (Some scenario_contracts) None false.

(** The scenario with the interest-rate read failing. *)
Definition rate_down_env : Env :=
  {| window_ethereum := Some true;
     on_eth_requestAccounts := Normal [user];
     on_getSigner := Normal JsonRpcSigner;
     on_getReputationScore := fun _ => Normal 750;
     on_getReputationData := fun _ => Normal scenario_record;
     on_getBorrowingLimit := fun _ => Normal 2000000000000000000;
     on_getInterestRate := fun _ => Throw (ExternalError "CALL_EXCEPTION");
     on_getTrustScore := fun _ => Normal 120;
     on_getUserCircles := fun _ => Normal [7; 12];
     on_mint := fun _ => Normal (mkTx "0x01");
     on_wait := fun _ => Normal tt |}.

(** An address without a reputation token, all services up. *)
Definition newcomer_env : Env :=
  {| window_ethereum := Some true;
     on_eth_requestAccounts := Normal [user];
     on_getSigner := Normal JsonRpcSigner;
     on_getReputationScore := fun _ => Normal 0;
     on_getReputationData := fun _ => Normal (mkReputationData 0 0 0 0 0 0);
     on_getBorrowingLimit := fun _ => Normal 0;
     on_getInterestRate := fun _ => Normal 0;
     on_getTrustScore := fun _ => Normal 0;
     on_getUserCircles := fun _ => Normal [];
     on_mint := fun _ => Normal (mkTx "0x01");
     on_wait := fun _ => Normal tt |}.

(** The reputation service unreachable. *)
Definition reputation_down_env : Env :=
  {| window_ethereum := Some true;
     on_eth_requestAccounts := Normal [user];
     on_getSigner := Normal JsonRpcSigner;
     on_getReputationScore := fun _ => Throw (ExternalError "NETWORK_ERROR");
     on_getReputationData := fun _ => Throw (ExternalError "NETWORK_ERROR");
     on_getBorrowingLimit := fun _ => Normal 0;
     on_getInterestRate := fun _ => Normal 0;
     on_getTrustScore := fun _ => Normal 0;
     on_getUserCircles := fun _ => Normal [];
     on_mint := fun _ => Throw (ExternalError "NETWORK_ERROR");
     on_wait := fun _ => Normal tt |}.

(** The user declines the wallet's connection prompt. *)
Definition declined_env : Env :=
  {| window_ethereum := Some true;
     on_eth_requestAccounts := Throw (ExternalError "ACTION_REJECTED");
     on_getSigner := Normal JsonRpcSigner;
     on_getReputationScore := fun _ => Normal 750;
     on_getReputationData := fun _ => Normal scenario_record;
     on_getBorrowingLimit := fun _ => Normal 2000000000000000000;
     on_getInterestRate := fun _ => Normal 850;
     on_getTrustScore := fun _ => Normal 120;
     on_getUserCircles := fun _ => Normal [7; 12];
     on_mint := fun _ => Normal (mkTx "0x01");
     on_wait := fun _ => Normal tt |}.

(** ** Sequencing of requests *)

(** No dependent read is issued once a dependent read has settled. *)
Fixpoint issued_together_from (settled : bool) (evs : list event) : bool :=
  match evs with
  | Issued c :: rest =>
      if is_dependent_read (method_of c) && settled then false
      else issued_together_from settled rest
  | Settled c _ :: rest =>
      issued_together_from (settled || is_dependent_read (method_of c)) rest
  | _ :: rest => issued_together_from settled rest
  | [] => true
  end.

Definition dependent_reads : list method :=
  [m_getReputationData; m_getBorrowingLimit; m_getInterestRate;
   m_getTrustScore; m_getUserCircles].

(** The five dependent reads are issued concurrently: all of them are
    issued, and all before any of them settles (what
    [Promise.all([...])] over the five calls produces). *)
Definition issued_concurrently (evs : list event) : bool :=
  forallb (fun m => existsb (method_eqb m) (issued evs)) dependent_reads
  && issued_together_from false evs.

(** The requests are serialized: each one issued settles before anything
    else happens, so at most one is in flight. *)
Fixpoint one_at_a_time (evs : list event) : bool :=
  match evs with
  | Issued c :: rest =>
      match rest with
      | Settled c' _ :: rest' =>
          method_eqb (method_of c) (method_of c') && one_at_a_time rest'
      | _ => false
      end
  | Settled _ _ :: _ => false
  | _ :: rest => one_at_a_time rest
  | [] => true
  end.

Fixpoint prefixb (l full : list method) : bool :=
  match l, full with
  | [], _ => true
  | a :: l', b :: full' => method_eqb a b && prefixb l' full'
  | _ :: _, [] => false
  end.

(** The order of the awaits in [loadUserData]. *)
Definition source_order : list method :=
  [m_getReputationScore; m_getReputationData; m_getBorrowingLimit;
   m_getInterestRate; m_getTrustScore; m_getUserCircles].

(** The requests fulfilled before the first publication. *)
Fixpoint fulfilled_before_publish (evs : list event) : list method :=
  match evs with
  | SetReputationData _ :: _ => []
  | Settled c true :: rest => method_of c :: fulfilled_before_publish rest
  | _ :: rest => fulfilled_before_publish rest
  | [] => []
  end.

(** No request is made twice. *)
Fixpoint no_repeat (ms : list method) : bool :=
  match ms with
  | [] => true
  | m :: rest => negb (existsb (method_eqb m) rest) && no_repeat rest
  end.

(** The wallet connection itself fails: no wallet, an unusable one, a
    declined or failed account request, or no signer. *)
Definition connect_fails (env : Env) : bool :=
  match window_ethereum env with
  | None => true
  | Some false => true
  | Some true =>
      rejects (on_eth_requestAccounts env) || rejects (on_getSigner env)
  end.

(** The session is given an identity or service bindings. *)
Definition is_connection_write (ev : event) : bool :=
  match ev with
  | SetProvider _ | SetSigner _ | SetAccount _ | SetContracts _ => true
  | _ => false
  end.

(** Every read of a service comes after the identity and the bindings
    are set. *)
Fixpoint reads_follow_connection (account_set contracts_set : bool)
    (evs : list event) : bool :=
  match evs with
  | SetAccount _ :: rest => reads_follow_connection true contracts_set rest
  | SetContracts _ :: rest => reads_follow_connection account_set true rest
  | Issued c :: rest =>
      (negb (is_read (method_of c)) || (account_set && contracts_set))
      && reads_follow_connection account_set contracts_set rest
  | _ :: rest => reads_follow_connection account_set contracts_set rest
  | [] => true
  end.

(** The refresh inside a workflow failed: [loadUserData] logged an
    error. *)
Definition is_refresh_failure (ev : event) : bool :=
  match ev with
  | ConsoleError label _ => String.eqb label "Error loading user data:"
  | _ => false
  end.

(** ** The Snapshot of the scenario *)

(** As the specification states it. *)
Definition claimed_snapshot : Snapshot :=
  {| score := 750;
     tier := 2;
     loansCompleted := 3;
     totalBorrowed := "5.00";
     totalRepaid := "4.80";
     borrowingLimit := "2.00";
     interestRate := 8.5;
     trustScore := 120;
     circles := 2 |}.

(** As [loadUserData] stores it. *)
Definition stored_snapshot : Snapshot :=
  {| score := 750;
     tier := 2;
     loansCompleted := 3;
     totalBorrowed := "5.0";
     totalRepaid := "4.8";
     borrowingLimit := "2.0";
     interestRate := 8.5;
     trustScore := 120;
     circles := 2 |}.

(** A float is exactly the rational [n / d] ([d > 0]). *)
Definition exactly (x : float) (n d : Z) : bool :=
  match Prim2SF x with
  | S754_zero _ => n =? 0
  | S754_finite negative m e =>
      let v := if negative then Z.neg m else Z.pos m in
      if 0 <=? e then v * 2 ^ e * d =? n
      else v * d =? n * 2 ^ (- e)
  | _ => false
  end.

(** The scenario's Snapshot with another tier index (a uint8). *)
Definition with_tier (t : Z) : Snapshot :=
  {| score := score stored_snapshot;
     tier := JS.Number t;
     loansCompleted := loansCompleted stored_snapshot;
     totalBorrowed := totalBorrowed stored_snapshot;
     totalRepaid := totalRepaid stored_snapshot;
     borrowingLimit := borrowingLimit stored_snapshot;
     interestRate := interestRate stored_snapshot;
     trustScore := trustScore stored_snapshot;
     circles := circles stored_snapshot |}.

(** ** How a workflow treats its failures *)

(** The run hands no failure to its caller (it completes normally), any
    rejected request is logged to the console, and no request is made a
    second time. *)
Definition handled_inside (r : Run unit) : Prop :=
  result r = Normal tt /\
  (existsb is_rejection (events r) = true ->
   existsb is_console_error (events r) = true) /\
  no_repeat (issued (events r)) = true.

(* ===================================================================== *)
(** * The rendered component, lines 131-296 *)
(* ===================================================================== *)

Module JSString.

(** A relative index of [slice]: counted from the end when negative,
    clamped to the string. *)
Definition relative (len i : Z) : Z :=
  if i <? 0 then Z.max (len + i) 0 else Z.min i len.

(** [s.slice(start, end)]; [end] absent means the length. *)
Definition slice (s : string) (start : Z) (finish : option Z) : string :=
  let len := Z.of_nat (String.length s) in
  let from := relative len start in
  let to := match finish with Some e => relative len e | None => len end in
  substring (Z.to_nat from) (Z.to_nat (Z.max (to - from) 0)) s.

(** [!!v] for a string or [null]: the empty string is falsy. *)
Definition truthy (v : option string) : bool :=
  match v with
  | Some (String _ _) => true
  | Some EmptyString => false
  | None => false
  end.

End JSString.

(** The value of [activeTab]: the initial ['dashboard'] or what a tab
    button sets. *)
Inductive Tab := tab_dashboard | tab_borrow | tab_lend | tab_circles.

(** What a button's [onClick] runs. *)
Inductive Handler :=
  | on_connectWallet
  | on_mintReputation.

Record Button := mkButton {
  button_label : string;
  button_disabled : bool;
  button_onClick : Handler
}.

(** The right of the header: the connect button or the wallet badge. *)
Inductive HeaderView :=
  | HeaderConnect (b : Button)
  | HeaderWallet (badge : string).

(** The dashboard tab: the invitation to mint or the reputation card. *)
Inductive DashboardView :=
  | Welcome (b : Button)
  | Reputation (card : Card).

Inductive PanelView :=
  | DashboardPanel (d : DashboardView)
  | BorrowPanel
  | LendPanel
  | CirclesPanel.

(** The main content: the hero with its button, or the tabs with the
    panel of the active one. *)
Inductive MainView :=
  | Hero (b : Button)
  | Tabs (active : Tab) (panel : PanelView).

Record View := mkView {
  view_header : HeaderView;
  view_main : MainView
}.

(** [{account.slice(0, 6)}...{account.slice(-4)}]. *)
Definition wallet_badge (account : string) : string :=
  JSString.slice account 0 (Some 6) ++ "..." ++ JSString.slice account (-4) None.

(** The component's [return (...)] for a state and an active tab. *)
Definition render (s : Session) (activeTab : Tab) : outcome View :=
  let header :=
    match account s with
    | Some acc =>
        if JSString.truthy (account s) then HeaderWallet (wallet_badge acc)
        else HeaderConnect
               (mkButton (if loading s then "Connecting..." else "Connect Wallet")
                         (loading s) on_connectWallet)
    | None =>
        HeaderConnect
          (mkButton (if loading s then "Connecting..." else "Connect Wallet")
                    (loading s) on_connectWallet)
    end in
  if negb (JSString.truthy (account s)) then
    Normal (mkView header (Hero (mkButton "Get Started" false on_connectWallet)))
  else
    match activeTab with
    | tab_dashboard =>
        match reputationData s with
        | None =>
            Normal
              (mkView header
                 (Tabs activeTab
                    (DashboardPanel
                       (Welcome
                          (mkButton
                             (if loading s then "Minting..."
                              else "Mint Reputation NFT")
                             (loading s) on_mintReputation)))))
        | Some d =>
            match render_card d with
            | Normal card =>
                Normal (mkView header (Tabs activeTab (DashboardPanel (Reputation card))))
            | Throw e => Throw e
            end
        end
    | tab_borrow => Normal (mkView header (Tabs activeTab BorrowPanel))
    | tab_lend => Normal (mkView header (Tabs activeTab LendPanel))
    | tab_circles => Normal (mkView header (Tabs activeTab CirclesPanel))
    end.

(** What clicking a button runs. *)
Definition click (env : Env) (h : Handler) : M unit :=
  match h with
  | on_connectWallet => connectWallet env
  | on_mintReputation => mintReputation env
  end.

(** ** Further observations on runs *)

(** The identity a request is made for, for the requests that take one. *)
Definition subject (c : call) : option (option Address) :=
  match c with
  | getReputationScore a | getReputationData a | getBorrowingLimit a
  | getInterestRate a | getTrustScore a | getUserCircles a | mint a => Some a
  | eth_requestAccounts | getSigner | wait _ => None
  end.

(** The calls a run issued, with their arguments. *)
Fixpoint issued_calls (evs : list event) : list call :=
  match evs with
  | Issued c :: rest => c :: issued_calls rest
  | _ :: rest => issued_calls rest
  | [] => []
  end.

(** The Snapshots a run published, in order. *)
Fixpoint publications (evs : list event) : list Snapshot :=
  match evs with
  | SetReputationData d :: rest => d :: publications rest
  | _ :: rest => publications rest
  | [] => []
  end.

(** Every request is issued and settles while the loading flag, as the
    run itself sets it, is up. *)
Fixpoint requests_while_loading (flag : bool) (evs : list event) : bool :=
  match evs with
  | SetLoading b :: rest => requests_while_loading b rest
  | Issued _ :: rest => flag && requests_while_loading flag rest
  | Settled _ _ :: rest => flag && requests_while_loading flag rest
  | _ :: rest => requests_while_loading flag rest
  | [] => true
  end.

(** The session with another loading flag. *)
Definition with_loading (s : Session) (b : bool) : Session :=
  mkSession (account s) (provider s) (signer s) (contracts s)
            (reputationData s) b.

(** The session with another stored Snapshot. *)
Definition with_reputationData (s : Session) (d : option Snapshot) : Session :=
  mkSession (account s) (provider s) (signer s) (contracts s) d (loading s).

(** The bindings [connectWallet] builds for a signer. *)
Definition bindings (g : Signer) : Contracts :=
  mkContracts
    (mkContract CONTRACT_ADDRESSES_reputationNFT REPUTATION_NFT_ABI g)
    (mkContract CONTRACT_ADDRESSES_lendingPool LENDING_POOL_ABI g)
    (mkContract CONTRACT_ADDRESSES_trustCircle TRUST_CIRCLE_ABI g).

(** The mint and its confirmation both go through. *)
Definition mint_confirmed (env : Env) (s : Session) : bool :=
  match contracts s with
  | None => false
  | Some _ =>
      match on_mint env (account s) with
      | Normal tx => negb (rejects (on_wait env tx))
      | Throw _ => false
      end
  end.

(** Every read of the aggregation is fulfilled, with a positive score. *)
Definition aggregation_succeeds (env : Env) (address : option Address) : bool :=
  match on_getReputationScore env address with
  | Normal sc =>
      (sc >? 0)
      && negb (rejects (on_getReputationData env address))
      && negb (rejects (on_getBorrowingLimit env address))
      && negb (rejects (on_getInterestRate env address))
      && negb (rejects (on_getTrustScore env address))
      && negb (rejects (on_getUserCircles env address))
  | Throw _ => false
  end.

(** A wallet that grants the connection but lists no account. *)
Definition no_account_env : Env :=
  {| window_ethereum := Some true;
     on_eth_requestAccounts := Normal [];
     on_getSigner := Normal JsonRpcSigner;
     on_getReputationScore := fun _ => Throw (ExternalError "INVALID_ARGUMENT");
     on_getReputationData := fun _ => Throw (ExternalError "INVALID_ARGUMENT");
     on_getBorrowingLimit := fun _ => Throw (ExternalError "INVALID_ARGUMENT");
     on_getInterestRate := fun _ => Throw (ExternalError "INVALID_ARGUMENT");
     on_getTrustScore := fun _ => Throw (ExternalError "INVALID_ARGUMENT");
     on_getUserCircles := fun _ => Throw (ExternalError "INVALID_ARGUMENT");
     on_mint := fun _ => Throw (ExternalError "INVALID_ARGUMENT");
     on_wait := fun _ => Normal tt |}.

(** The services disagree: the score read is positive, the record's
    score is zero. *)
Definition inconsistent_env : Env :=
  {| window_ethereum := Some true;
     on_eth_requestAccounts := Normal [user];
     on_getSigner := Normal JsonRpcSigner;
     on_getReputationScore := fun _ => Normal 1;
     on_getReputationData := fun _ => Normal (mkReputationData 0 0 0 0 0 0);
     on_getBorrowingLimit := fun _ => Normal 0;
     on_getInterestRate := fun _ => Normal 0;
     on_getTrustScore := fun _ => Normal 0;
     on_getUserCircles := fun _ => Normal [];
     on_mint := fun _ => Normal (mkTx "0x01");
     on_wait := fun _ => Normal tt |}.

(** ** Decimal texts *)

(** The digit scanner of [parseFloat], by name. *)
Fixpoint span_digits (l : list ascii) : list ascii * list ascii :=
  match l with
  | c :: r =>
      if JS.is_digit c then let '(a, b) := span_digits r in (c :: a, b)
      else ([], l)
  | [] => ([], [])
  end.

(** A run of decimal digits. *)
Definition digits (l : list ascii) : Prop := forallb JS.is_digit l = true.

(** One step of reading a decimal numeral, as [JS.digits_value] folds
    it. *)
Definition step (acc : Z) (c : ascii) : Z := 10 * acc + JS.digit_value c.

(* ===================================================================== *)
(** * Symbolic execution *)
(* ===================================================================== *)

(** Unfold the computation down to the answers of the environment. *)
Ltac unfold_run :=
  cbv [loadUserData connectWallet mintReputation bind ret throw try_catch emit
       update captured await alert console_error setLoading setProvider
       setSigner setAccount setContracts setReputationData or_uninitialized
       property new_BrowserProvider after app result final events
       account provider signer contracts reputationData loading].

(** Split on the next answer (or test) the run is stuck on. *)
Ltac split_answer :=
  match goal with
  | |- context [match ?x with Normal _ => _ | Throw _ => _ end] =>
      destruct x eqn:?
  | |- context [if ?b then _ else _] => destruct b eqn:?
  | |- context [match ?x with Some _ => _ | None => _ end] =>
      destruct x eqn:?
  end; unfold_run.

Ltac split_answers := repeat split_answer.

(** ** The library routines on known values *)

Example formatEther_one : Ethers.formatEther 1000000000000000000 = "1.0".
Proof. reflexivity. Qed.

Example formatEther_fraction : Ethers.formatEther 1230000000000000 = "0.00123".
Proof. reflexivity. Qed.

Example formatEther_zero : Ethers.formatEther 0 = "0.0".
Proof. reflexivity. Qed.

Example formatEther_wei : Ethers.formatEther 1 = "0.000000000000000001".
Proof. reflexivity. Qed.

Example formatEther_negative : Ethers.formatEther (-1500000000000000000) = "-1.5".
Proof. reflexivity. Qed.

Example parseFloat_exponent_is_outside : JS.parseFloat "1e5" = None.
Proof. reflexivity. Qed.

Example toFixed2_pads : option_map JS.toFixed2 (JS.parseFloat "4.8") = Some (Some "4.80").
Proof. reflexivity. Qed.

Example toFixed2_rounds_the_binary_value :
  option_map JS.toFixed2 (JS.parseFloat "1.005") = Some (Some "1.00") /\
  option_map JS.toFixed2 (JS.parseFloat "0.005") = Some (Some "0.01") /\
  option_map JS.toFixed2 (JS.parseFloat "123456789.999") = Some (Some "123456790.00").
Proof. repeat split. Qed.

Example Number_rounds_beyond_2_53 :
  JS.Number (2 ^ 53 + 1) = JS.Number (2 ^ 53).
Proof. reflexivity. Qed.

Example array_index_examples :
  JS.get tierNames 1.5%float = None /\
  JS.get tierNames (-1)%float = None /\
  JS.get tierNames neg_zero = Some "Bronze".
Proof. repeat split. Qed.

(** What issuing the five reads together looks like, and what the
    predicates say of it. *)
Example issued_together_is_recognised :
  let a := Some user in
  let evs :=
    [Issued (getReputationScore a); Settled (getReputationScore a) true;
     Issued (getReputationData a); Issued (getBorrowingLimit a);
     Issued (getInterestRate a); Issued (getTrustScore a);
     Issued (getUserCircles a);
     Settled (getTrustScore a) true; Settled (getReputationData a) true;
     Settled (getUserCircles a) true; Settled (getBorrowingLimit a) true;
     Settled (getInterestRate a) true] in
  issued_concurrently evs = true /\ one_at_a_time evs = false.
Proof. repeat split. Qed.

(** ** [loadUserData] case by case *)

Section LoadUserData.

Variables (env : Env) (address : option Address) (s : Session).

(** Without a second argument the body throws at its first statement;
    the [catch] logs it. *)
Lemma loadUserData_without_contracts :
  loadUserData env address None s =
  mkRun (Normal tt) s
        [ConsoleError "Error loading user data:"
           (ReferenceError "Cannot access 'contracts' before initialization")].
Proof. reflexivity. Qed.

(** The score read fails. *)
Lemma loadUserData_score_rejected c e :
  on_getReputationScore env address = Throw e ->
  loadUserData env address (Some c) s =
  mkRun (Normal tt) s
        [Issued (getReputationScore address);
         Settled (getReputationScore address) false;
         ConsoleError "Error loading user data:" e].
Proof. intros H. unfold_run. rewrite H. reflexivity. Qed.

(** The score is not positive. *)
Lemma loadUserData_no_reputation c sc :
  on_getReputationScore env address = Normal sc ->
  sc <= 0 ->
  loadUserData env address (Some c) s =
  mkRun (Normal tt) s
        [Issued (getReputationScore address);
         Settled (getReputationScore address) true].
Proof.
  intros H Hsc. unfold_run. rewrite H.
  destruct (sc >? 0) eqn:E; [apply Z.gtb_lt in E; lia | reflexivity].
Qed.

(** Every read succeeds. *)
Lemma loadUserData_success c sc data limit rate trust ids :
  on_getReputationScore env address = Normal sc ->
  sc > 0 ->
  on_getReputationData env address = Normal data ->
  on_getBorrowingLimit env address = Normal limit ->
  on_getInterestRate env address = Normal rate ->
  on_getTrustScore env address = Normal trust ->
  on_getUserCircles env address = Normal ids ->
  let d :=
    {| score := JS.Number (data_score data);
       tier := JS.Number (data_currentTier data);
       loansCompleted := JS.Number (data_loansCompleted data);
       totalBorrowed := Ethers.formatEther (data_totalBorrowed data);
       totalRepaid := Ethers.formatEther (data_totalRepaid data);
       borrowingLimit := Ethers.formatEther limit;
       interestRate := (JS.Number rate / 100)%float;
       trustScore := JS.Number trust;
       circles := List.length ids |} in
  loadUserData env address (Some c) s =
  mkRun (Normal tt)
        (mkSession (account s) (provider s) (signer s) (contracts s) (Some d)
                   (loading s))
        [Issued (getReputationScore address);
         Settled (getReputationScore address) true;
         Issued (getReputationData address);
         Settled (getReputationData address) true;
         Issued (getBorrowingLimit address);
         Settled (getBorrowingLimit address) true;
         Issued (getInterestRate address);
         Settled (getInterestRate address) true;
         Issued (getTrustScore address);
         Settled (getTrustScore address) true;
         Issued (getUserCircles address);
         Settled (getUserCircles address) true;
         SetReputationData d].
Proof.
  intros H Hsc Hd Hl Hr Ht Hc d. unfold_run. rewrite H.
  destruct (sc >? 0) eqn:E; [| rewrite Z.gtb_ltb in E; apply Z.ltb_ge in E; lia].
  rewrite Hd, Hl, Hr, Ht, Hc. reflexivity.
Qed.

(** Whatever the services answer, the call completes normally. *)
Lemma loadUserData_never_throws contractsObj :
  result (loadUserData env address contractsObj s) = Normal tt.
Proof. unfold_run. split_answers; reflexivity. Qed.

(** The session changes only by a publication. *)
Lemma loadUserData_unpublished contractsObj :
  published (events (loadUserData env address contractsObj s)) = false ->
  final (loadUserData env address contractsObj s) = s.
Proof. unfold_run. split_answers; first [reflexivity | discriminate]. Qed.

(** A publication needs every dependent read fulfilled. *)
Lemma loadUserData_published contractsObj :
  published (events (loadUserData env address contractsObj s)) = true ->
  rejects (on_getReputationData env address) = false /\
  rejects (on_getBorrowingLimit env address) = false /\
  rejects (on_getInterestRate env address) = false /\
  rejects (on_getTrustScore env address) = false /\
  rejects (on_getUserCircles env address) = false.
Proof.
  unfold_run. split_answers; intros P; try discriminate P; repeat split.
Qed.

(** A rejected read is logged. *)
Lemma loadUserData_logs contractsObj :
  existsb is_rejection (events (loadUserData env address contractsObj s)) = true ->
  existsb is_console_error (events (loadUserData env address contractsObj s)) = true.
Proof. unfold_run. split_answers; intros P; first [reflexivity | discriminate P]. Qed.

End LoadUserData.

(* ===================================================================== *)
(** * Binary64 arithmetic of the interest rate *)
(* ===================================================================== *)

Module Binary64.

Lemma digits2_pos_lower (p : positive) :
  2 ^ (Z.pos (digits2_pos p) - 1) <= Z.pos p.
Proof.
  induction p as [p IH | p IH |]; cbn [digits2_pos].
  - rewrite Pos2Z.inj_succ. replace (Z.succ (Z.pos (digits2_pos p)) - 1)
      with (Z.succ (Z.pos (digits2_pos p) - 1)) by lia.
    rewrite Z.pow_succ_r by lia. lia.
  - rewrite Pos2Z.inj_succ. replace (Z.succ (Z.pos (digits2_pos p)) - 1)
      with (Z.succ (Z.pos (digits2_pos p) - 1)) by lia.
    rewrite Z.pow_succ_r by lia. lia.
  - simpl. lia.
Qed.

Lemma digits2_pos_upper (p : positive) :
  Z.pos p < 2 ^ Z.pos (digits2_pos p).
Proof.
  induction p as [p IH | p IH |]; cbn [digits2_pos].
  - rewrite Pos2Z.inj_succ, Z.pow_succ_r by lia. lia.
  - rewrite Pos2Z.inj_succ, Z.pow_succ_r by lia. lia.
  - simpl. lia.
Qed.

(** The number of bits of a positive is fixed by its magnitude. *)
Lemma digits2_pos_unique (p : positive) (n : Z) :
  2 ^ (n - 1) <= Z.pos p < 2 ^ n -> Z.pos (digits2_pos p) = n.
Proof.
  intros [Hlo Hhi].
  pose proof (digits2_pos_lower p) as L. pose proof (digits2_pos_upper p) as U.
  assert (Hn : 0 < n).
  { destruct (Z.lt_ge_cases 0 n) as [| Hle]; [assumption |].
    assert (2 ^ n <= 2 ^ 0) by (apply Z.pow_le_mono_r; lia).
    simpl in *. lia. }
  destruct (Z.lt_trichotomy (Z.pos (digits2_pos p)) n) as [Hlt | [Heq | Hgt]];
    [| exact Heq |].
  - assert (2 ^ Z.pos (digits2_pos p) <= 2 ^ (n - 1))
      by (apply Z.pow_le_mono_r; lia). lia.
  - assert (2 ^ n <= 2 ^ (Z.pos (digits2_pos p) - 1))
      by (apply Z.pow_le_mono_r; lia). lia.
Qed.

Lemma iter_xO_value (p d : positive) :
  Z.pos (Pos.iter xO p d) = Z.pos p * 2 ^ Z.pos d.
Proof.
  induction d as [| d IH] using Pos.peano_ind.
  - simpl. lia.
  - rewrite Pos.iter_succ, Pos2Z.inj_xO, IH, Pos2Z.inj_succ, Z.pow_succ_r by lia.
    lia.
Qed.

(** A mantissa of 53 bits with an exponent in range is kept as it is. *)
Lemma round_exact_53 (s : bool) (m : positive) (e : Z) :
  Z.pos (digits2_pos m) = 53 -> -1074 <= e <= 971 ->
  binary_round_aux prec emax s (Z.pos m) e loc_Exact = S754_finite s m e.
Proof.
  intros Hd He.
  unfold binary_round_aux, shr_fexp, fexp, SpecFloat.emin, prec, emax.
  cbn [Zdigits2 shr_record_of_loc]. rewrite Hd.
  replace (Z.max (53 + e - 53) (3 - 1024 - 53) - e) with 0 by lia.
  cbn [shr shr_m loc_of_shr_record round_nearest_even Zdigits2 shr_record_of_loc].
  rewrite Hd.
  replace (Z.max (53 + e - 53) (3 - 1024 - 53) - e) with 0 by lia.
  cbn [shr shr_m].
  replace (e <=? 1024 - 53) with true by (symmetry; apply Z.leb_le; lia).
  reflexivity.
Qed.

(** An even mantissa of 54 bits loses its last bit, exactly. *)
Lemma round_exact_54 (s : bool) (m : positive) (e : Z) :
  Z.pos (digits2_pos m) = 53 -> -1075 <= e <= 970 ->
  binary_round_aux prec emax s (Z.pos m~0) e loc_Exact = S754_finite s m (e + 1).
Proof.
  intros Hd He.
  unfold binary_round_aux, shr_fexp, fexp, SpecFloat.emin, prec, emax.
  cbn [Zdigits2 shr_record_of_loc digits2_pos]. rewrite Pos2Z.inj_succ, Hd.
  replace (Z.max (Z.succ 53 + e - 53) (3 - 1024 - 53) - e) with 1 by lia.
  cbn [shr iter_pos shr_1 orb shr_m loc_of_shr_record round_nearest_even
       Zdigits2 shr_record_of_loc].
  rewrite Hd.
  replace (Z.max (53 + (e + 1) - 53) (3 - 1024 - 53) - (e + 1)) with 0 by lia.
  cbn [shr shr_m].
  replace (e + 1 <=? 1024 - 53) with true by (symmetry; apply Z.leb_le; lia).
  reflexivity.
Qed.

(** A positive integer below 2^53 normalizes, exactly, to a mantissa of
    53 bits. *)
Lemma normalize_exact (p : positive) :
  Z.pos p < 2 ^ 53 ->
  exists m k,
    0 <= k <= 52 /\
    Z.pos m = Z.pos p * 2 ^ k /\
    Z.pos (digits2_pos m) = 53 /\
    Z.pos (digits2_pos p) = 53 - k /\
    binary_normalize prec emax (Z.pos p) 0 false = S754_finite false m (- k).
Proof.
  intros Hp.
  pose proof (digits2_pos_lower p) as L. pose proof (digits2_pos_upper p) as U.
  assert (HD : Z.pos (digits2_pos p) <= 53).
  { destruct (Z.le_gt_cases (Z.pos (digits2_pos p)) 53) as [| Hgt]; [assumption |].
    assert (2 ^ 53 <= 2 ^ (Z.pos (digits2_pos p) - 1))
      by (apply Z.pow_le_mono_r; lia). lia. }
  unfold binary_normalize, binary_round, shl_align, fexp, SpecFloat.emin, prec, emax.
  replace (Z.max (Z.pos (digits2_pos p) + 0 - 53) (3 - 1024 - 53) - 0)
    with (Z.pos (digits2_pos p) - 53) by lia.
  replace (Z.max (Z.pos (digits2_pos p) + 0 - 53) (3 - 1024 - 53))
    with (Z.pos (digits2_pos p) - 53) by lia.
  destruct (Z.pos (digits2_pos p) - 53) as [| d | d] eqn:E; [| lia |].
  - exists p, 0. repeat split; try lia.
    apply round_exact_53; lia.
  - exists (Pos.iter xO p d), (Z.pos d).
    assert (V : Z.pos (Pos.iter xO p d) = Z.pos p * 2 ^ Z.pos d)
      by apply iter_xO_value.
    assert (Dg : Z.pos (digits2_pos (Pos.iter xO p d)) = 53).
    { apply digits2_pos_unique. rewrite V.
      replace 53 with (Z.pos (digits2_pos p) + Z.pos d) at 2 by lia.
      replace (53 - 1) with ((Z.pos (digits2_pos p) - 1) + Z.pos d) by lia.
      rewrite !Z.pow_add_r by lia.
      assert (0 < 2 ^ Z.pos d) by (apply Z.pow_pos_nonneg; lia). nia. }
    repeat split; try lia; try assumption.
    replace (Z.neg d) with (- Z.pos d) by reflexivity.
    apply round_exact_53; [exact Dg | lia].
Qed.

(** [Number(b)] is exact below 2^53: the bigint itself on 53 bits. *)
Lemma Number_exact (p : positive) :
  Z.pos p < 2 ^ 53 ->
  exists m k,
    0 <= k <= 52 /\
    Z.pos m = Z.pos p * 2 ^ k /\
    Z.pos (digits2_pos m) = 53 /\
    Z.pos (digits2_pos p) = 53 - k /\
    Prim2SF (JS.Number (Z.pos p)) = S754_finite false m (- k).
Proof.
  intros Hp. destruct (normalize_exact p Hp) as (m & k & Hk & Hm & Hd & Hdp & Hn).
  exists m, k. repeat split; try assumption; try lia.
  unfold JS.Number. rewrite Hn. apply Prim2SF_SF2Prim.
  unfold valid_binary, bounded, canonical_mantissa, fexp, SpecFloat.emin, prec, emax.
  rewrite Hd. apply andb_true_intro. split.
  - apply Z.eqb_eq. lia.
  - apply Z.leb_le. lia.
Qed.

Lemma div_eucl_pair (a b : Z) : Z.div_eucl a b = (a / b, a mod b).
Proof. unfold Z.div, Z.modulo. now destruct (Z.div_eucl a b). Qed.

(** Dividing the normalized operands or the integers themselves reaches
    the same quotient, exponent and position of the remainder. *)
Lemma div_core_100 (p m : positive) (k : Z) :
  0 <= k <= 52 ->
  Z.pos m = Z.pos p * 2 ^ k ->
  Z.pos (digits2_pos m) = 53 ->
  Z.pos (digits2_pos p) = 53 - k ->
  SFdiv_core_binary prec emax (Z.pos m) (- k) (Z.pos 7036874417766400) (-46) =
  (Z.pos p * 2 ^ (7 + k) / 100, - 7 - k,
   new_location 100 (Z.pos p * 2 ^ (7 + k) mod 100)) /\
  SFdiv_core_binary prec emax (Z.pos p) 0 100 0 =
  (Z.pos p * 2 ^ (7 + k) / 100, - 7 - k,
   new_location 100 (Z.pos p * 2 ^ (7 + k) mod 100)).
Proof.
  intros Hk Hm Hd Hdp.
  assert (P46 : 0 < 2 ^ 46) by (apply Z.pow_pos_nonneg; lia).
  split.
  - unfold SFdiv_core_binary, fexp, SpecFloat.emin, prec, emax.
    cbn [Zdigits2]. rewrite Hd.
    change (Z.pos (digits2_pos 7036874417766400)) with 53.
    replace (Z.min (Z.max (53 + - k - (53 + -46) - 53) (3 - 1024 - 53)) (- k - -46))
      with (- 7 - k) by lia.
    replace (- k - -46 - (- 7 - k)) with 53 by lia.
    rewrite Z.shiftl_mul_pow2 by lia.
    rewrite div_eucl_pair.
    set (a := Z.pos p * 2 ^ (7 + k)).
    assert (Ha : Z.pos m * 2 ^ 53 = a * 2 ^ 46).
    { unfold a. rewrite Hm. replace 53 with (7 + 46) at 1 by lia.
      rewrite !Z.pow_add_r by lia. ring. }
    change (Z.pos 7036874417766400) with (100 * 2 ^ 46).
    rewrite Ha.
    rewrite Z.div_mul_cancel_r by lia.
    rewrite Z.mul_mod_distr_r by lia.
    f_equal.
    unfold new_location.
    change (Z.even (100 * 2 ^ 46)) with true. change (Z.even 100) with true.
    unfold new_location_even.
    assert (R : 0 <= a mod 100 < 100) by (apply Z.mod_pos_bound; lia).
    destruct (Z.eqb_spec (a mod 100) 0) as [E0 | E0].
    + rewrite E0. reflexivity.
    + destruct (Z.eqb_spec (a mod 100 * 2 ^ 46) 0) as [E1 | E1]; [nia |].
      f_equal. rewrite Z.mul_assoc. symmetry. apply Zmult_compare_compat_r. lia.
  - unfold SFdiv_core_binary, fexp, SpecFloat.emin, prec, emax.
    cbn [Zdigits2]. rewrite Hdp.
    change (Z.pos (digits2_pos 100)) with 7.
    replace (Z.min (Z.max (53 - k + 0 - (7 + 0) - 53) (3 - 1024 - 53)) (0 - 0))
      with (- 7 - k) by lia.
    replace (0 - 0 - (- 7 - k)) with (7 + k) by lia.
    destruct (7 + k) as [| s | s] eqn:Es; [lia | | lia].
    rewrite Z.shiftl_mul_pow2 by lia.
    rewrite div_eucl_pair. reflexivity.
Qed.

(** The quotient of an exact [Number] by 100 is the binary64 value
    nearest to the quotient of the integers. *)
Lemma Number_div_100 (raw : Z) :
  0 <= raw < 2 ^ 53 ->
  (JS.Number raw / 100)%float = JS.nearest_quotient false raw 100.
Proof.
  intros [Hlo Hhi]. destruct raw as [| p | p]; [reflexivity | | lia].
  destruct (Number_exact p Hhi) as (m & k & Hk & Hm & Hd & Hdp & HN).
  destruct (div_core_100 p m k Hk Hm Hd Hdp) as [Cn Cu].
  rewrite <- (SF2Prim_Prim2SF (JS.Number (Z.pos p) / 100)).
  rewrite div_spec, HN.
  change (Prim2SF 100) with (S754_finite false 7036874417766400 (-46)).
  unfold JS.nearest_quotient, SF64div, SFdiv.
  rewrite Cn, Cu. reflexivity.
Qed.

Lemma coprime_25_pow2 (j : Z) : 0 <= j -> Z.gcd 25 (2 ^ j) = 1.
Proof. intros Hj. apply Z.coprime_pow_r; [exact Hj | reflexivity]. Qed.

(** Only a multiple of 25 has a hundredth that is a binary64 value. *)
Lemma exactly_hundredth_multiple_of_25 (x : float) (raw : Z) :
  exactly x raw 100 = true -> raw mod 25 = 0.
Proof.
  unfold exactly. destruct (Prim2SF x) as [s | s | | s m e]; try discriminate.
  - intros H. apply Z.eqb_eq in H. subst raw. reflexivity.
  - set (v := if s then Z.neg m else Z.pos m).
    destruct (0 <=? e) eqn:He; intros H; apply Z.eqb_eq in H.
    + apply Z.leb_le in He. subst raw.
      replace (v * 2 ^ e * 100) with (4 * v * 2 ^ e * 25) by ring.
      apply Z.mod_mul. lia.
    + apply Z.leb_gt in He. apply Z.mod_divide; [lia |].
      apply Z.gauss with (m := 2 ^ (- e)); [| apply coprime_25_pow2; lia].
      exists (4 * v). rewrite Z.mul_comm, <- H. ring.
Qed.

(** Below 2^53 the hundredth of a multiple of 25 is stored exactly. *)
Lemma hundredth_of_multiple_of_25_exact (raw : Z) :
  0 <= raw < 2 ^ 53 -> raw mod 25 = 0 ->
  exactly (JS.Number raw / 100) raw 100 = true.
Proof.
  intros [Hlo Hhi] H25. destruct raw as [| p | p]; [reflexivity | | lia].
  rewrite Number_div_100 by lia.
  destruct (Number_exact p Hhi) as (m & k & Hk & Hm & Hd & Hdp & _).
  destruct (div_core_100 p m k Hk Hm Hd Hdp) as [_ Cu].
  unfold JS.nearest_quotient, SFdiv. rewrite Cu.
  set (a := Z.pos p * 2 ^ (7 + k)) in *.
  pose proof (digits2_pos_lower m) as Lm. pose proof (digits2_pos_upper m) as Um.
  rewrite Hd in Lm, Um. change (2 ^ (53 - 1)) with 4503599627370496 in Lm.
  change (2 ^ 53) with 9007199254740992 in Um.
  assert (Ha : a = Z.pos m * 128).
  { unfold a. rewrite Hm, Z.pow_add_r by lia. change (2 ^ 7) with 128. ring. }
  apply Z.mod_divide in H25; [| lia]. destruct H25 as [j Hj].
  assert (Hj0 : 0 < j) by lia.
  assert (P : 0 < 2 ^ k) by (apply Z.pow_pos_nonneg; lia).
  assert (Haq : a = 100 * (j * 2 ^ k * 32)).
  { unfold a. rewrite Hj, Z.pow_add_r by lia. change (2 ^ 7) with 128. ring. }
  assert (Hmod : a mod 100 = 0).
  { rewrite Haq, Z.mul_comm. apply Z.mod_mul. lia. }
  assert (Hq : a / 100 = 2 * (j * 2 ^ k * 16)).
  { rewrite Haq, Z.mul_comm, Z.div_mul by lia. ring. }
  rewrite Hmod, Hq. change (new_location 100 0) with loc_Exact.
  set (h := j * 2 ^ k * 16) in *.
  assert (Hh : 0 < h) by (unfold h; nia).
  assert (Hbound : 4503599627370496 <= 2 * h < 18014398509481984) by lia.
  destruct h as [| hp | hp] eqn:Eh; [lia | | lia].
  assert (A200 : Z.pos p * 2 ^ (7 + k) = 200 * Z.pos hp).
  { fold a. rewrite Haq. unfold h in Eh. lia. }
  change (2 * Z.pos hp) with (Z.pos hp~0). cbn [xorb].
  destruct (Z.lt_ge_cases (Z.pos hp~0) 9007199254740992) as [Hsmall | Hbig].
  - assert (Dq : Z.pos (digits2_pos hp~0) = 53)
      by (apply digits2_pos_unique; change (2 ^ (53 - 1)) with 4503599627370496;
          change (2 ^ 53) with 9007199254740992; lia).
    rewrite round_exact_53 by (first [exact Dq | lia]).
    unfold exactly. rewrite Prim2SF_SF2Prim.
    + replace (0 <=? - 7 - k) with false by (symmetry; apply Z.leb_gt; lia).
      apply Z.eqb_eq. replace (- (- 7 - k)) with (7 + k) by lia. lia.
    + unfold valid_binary, bounded, canonical_mantissa, fexp, SpecFloat.emin,
        prec, emax. rewrite Dq. apply andb_true_intro.
      split; [apply Z.eqb_eq | apply Z.leb_le]; lia.
  - assert (Dq : Z.pos (digits2_pos hp) = 53)
      by (apply digits2_pos_unique; change (2 ^ (53 - 1)) with 4503599627370496;
          change (2 ^ 53) with 9007199254740992; lia).
    rewrite round_exact_54 by (first [exact Dq | lia]).
    unfold exactly. rewrite Prim2SF_SF2Prim.
    + replace (0 <=? - 7 - k + 1) with false by (symmetry; apply Z.leb_gt; lia).
      apply Z.eqb_eq. replace (- (- 7 - k + 1)) with (6 + k) by lia.
      assert (E2 : Z.pos p * 2 ^ (7 + k) = Z.pos p * 2 ^ (6 + k) * 2).
      { replace (7 + k) with (Z.succ (6 + k)) by lia.
        rewrite Z.pow_succ_r by lia. ring. }
      lia.
    + unfold valid_binary, bounded, canonical_mantissa, fexp, SpecFloat.emin,
        prec, emax. rewrite Dq. apply andb_true_intro.
      split; [apply Z.eqb_eq | apply Z.leb_le]; lia.
Qed.

(** [Number(b)] holds [b] itself below 2^53. *)
Lemma Number_is_exact (raw : Z) :
  0 <= raw < 2 ^ 53 -> exactly (JS.Number raw) raw 1 = true.
Proof.
  intros [Hlo Hhi]. destruct raw as [| p | p]; [reflexivity | | lia].
  destruct (Number_exact p Hhi) as (m & k & Hk & Hm & Hd & Hdp & HN).
  unfold exactly. rewrite HN.
  destruct (0 <=? - k) eqn:E; apply Z.eqb_eq.
  - apply Z.leb_le in E. replace k with 0 in * by lia. simpl in Hm. simpl. lia.
  - rewrite Z.opp_involutive. lia.
Qed.

End Binary64.

(* ===================================================================== *)
(** * The aggregation *)
(* ===================================================================== *)

(** C1.  For an identity whose score is positive, if any one of the
    dependent reads (reputation record, borrowing limit, interest rate,
    trust score, circle list) fails, nothing is published and the session,
    with the Snapshot stored before, is left as it was; the failure is
    logged. *)
Theorem failed_read_publishes_nothing
    (env : Env) (address : option Address) (contractsObj : option Contracts)
    (s : Session) (sc : Z) :
  on_getReputationScore env address = Normal sc ->
  sc > 0 ->
  rejects (on_getReputationData env address)
  || rejects (on_getBorrowingLimit env address)
  || rejects (on_getInterestRate env address)
  || rejects (on_getTrustScore env address)
  || rejects (on_getUserCircles env address) = true ->
  let r := loadUserData env address contractsObj s in
  published (events r) = false /\
  final r = s /\
  reputationData (final r) = reputationData s /\
  existsb is_console_error (events r) = true.
Proof.
  intros Hscore Hpos Hfail r.
  assert (P : published (events r) = false).
  { destruct (published (events r)) eqn:P; [| reflexivity].
    apply loadUserData_published in P.
    destruct P as (P1 & P2 & P3 & P4 & P5).
    rewrite P1, P2, P3, P4, P5 in Hfail. discriminate Hfail. }
  assert (F : final r = s) by (apply loadUserData_unpublished; exact P).
  repeat split; [exact P | exact F | now rewrite F |].
  subst r. clear P F. revert Hfail. unfold_run. rewrite Hscore.
  destruct contractsObj; [| reflexivity]. unfold_run.
  destruct (sc >? 0) eqn:E;
    [| rewrite Z.gtb_ltb in E; apply Z.ltb_ge in E; lia].
  split_answers; simpl; intros Hfail; first [reflexivity | discriminate Hfail].
Qed.

Lemma failed_read_publishes_nothing_witness :
  let r := loadUserData rate_down_env (Some user) (Some scenario_contracts)
                        connected_session in
  published (events r) = false /\
  final r = connected_session /\
  reputationData (final r) = reputationData connected_session /\
  existsb is_console_error (events r) = true.
Proof.
  apply (failed_read_publishes_nothing rate_down_env (Some user)
           (Some scenario_contracts) connected_session 750);
    [reflexivity | lia | reflexivity].
Defined.

(** C2.  For an identity whose score reads as 0, [loadUserData] gives
    absence: it completes without a value, publishes no Snapshot (so none
    with zero-valued fields), makes no further read, and leaves the
    session unmodified. *)
Theorem zero_score_gives_absence
    (env : Env) (address : option Address) (contractsObj : option Contracts)
    (s : Session) :
  on_getReputationScore env address = Normal 0 ->
  let r := loadUserData env address contractsObj s in
  result r = Normal tt /\
  published (events r) = false /\
  existsb is_dependent_read (issued (events r)) = false /\
  final r = s.
Proof.
  intros Hscore r. subst r. destruct contractsObj as [c |].
  - rewrite (loadUserData_no_reputation env address s c 0 Hscore); [| lia].
    repeat split.
  - rewrite loadUserData_without_contracts. repeat split.
Qed.

Lemma zero_score_gives_absence_witness :
  let r := loadUserData newcomer_env (Some user) (Some scenario_contracts)
                        connected_session in
  result r = Normal tt /\
  published (events r) = false /\
  existsb is_dependent_read (issued (events r)) = false /\
  final r = connected_session.
Proof.
  apply (zero_score_gives_absence newcomer_env (Some user)
           (Some scenario_contracts) connected_session).
  reflexivity.
Defined.

(** C3, as stated, fails: with raw 7 the stored rate is not 7/100 (no
    binary64 value is), and with raw 2^53 + 1, which [Number] cannot
    hold, it is not even the binary64 value nearest to raw/100. *)
Lemma interest_rate_is_not_always_exact :
  let stored raw :=
    option_map interestRate
      (reputationData
         (final (loadUserData (with_rate raw) (Some user)
                              (Some scenario_contracts) connected_session))) in
  (stored 7 = Some (JS.Number 7 / 100)%float /\
   exactly (JS.Number 7 / 100) 7 100 = false) /\
  (stored 9007199254740993 = Some (JS.Number 9007199254740993 / 100)%float /\
   exactly (JS.Number 9007199254740993 / 100) 9007199254740993 100 = false /\
   (JS.Number 9007199254740993 / 100)%float
   <> JS.nearest_quotient false 9007199254740993 100).
Proof.
  cbv zeta. repeat split.
  intros H. apply (f_equal Prim2SF) in H. vm_compute in H. discriminate H.
Qed.

(** C3, amended.  For an identity whose score is positive and whose
    dependent reads all succeed, the published Snapshot's [interestRate]
    is [Number(raw) / 100] in binary64 arithmetic.  For raw below 2^53,
    where [Number(raw)] is raw itself, it is the binary64 value nearest to
    raw/100, and it is raw/100 exactly if and only if raw is a multiple of
    25, that is when raw/100 is a binary64 value: raw 250 gives exactly
    2.5 and raw 850 exactly 8.5. *)
Theorem interest_rate_is_nearest_to_basis_points_over_100
    (env : Env) (address : option Address) (c : Contracts) (s : Session)
    (sc : Z) (data : ReputationData) (limit raw trust : Z) (ids : list Z) :
  on_getReputationScore env address = Normal sc ->
  sc > 0 ->
  on_getReputationData env address = Normal data ->
  on_getBorrowingLimit env address = Normal limit ->
  on_getInterestRate env address = Normal raw ->
  on_getTrustScore env address = Normal trust ->
  on_getUserCircles env address = Normal ids ->
  (exists d,
     reputationData (final (loadUserData env address (Some c) s)) = Some d /\
     interestRate d = (JS.Number raw / 100)%float /\
     (0 <= raw < 2 ^ 53 ->
      exactly (JS.Number raw) raw 1 = true /\
      interestRate d = JS.nearest_quotient false raw 100 /\
      (exactly (interestRate d) raw 100 = true <-> raw mod 25 = 0))) /\
  ((JS.Number 250 / 100)%float = 2.5%float /\ exactly 2.5 250 100 = true) /\
  ((JS.Number 850 / 100)%float = 8.5%float /\ exactly 8.5 850 100 = true).
Proof.
  intros Hscore Hpos Hd Hl Hr Ht Hc.
  rewrite (loadUserData_success env address s c sc data limit raw trust ids)
    by assumption.
  split; [| repeat split; reflexivity].
  eexists. split; [reflexivity |]. split; [reflexivity |].
  cbn [interestRate]. intros Hraw.
  split; [apply Binary64.Number_is_exact; exact Hraw |].
  split; [apply Binary64.Number_div_100; exact Hraw |].
  split.
  - apply Binary64.exactly_hundredth_multiple_of_25.
  - apply Binary64.hundredth_of_multiple_of_25_exact; exact Hraw.
Qed.

Lemma interest_rate_is_nearest_to_basis_points_over_100_witness :
  (exists d,
     reputationData
       (final (loadUserData scenario_env (Some user) (Some scenario_contracts)
                            connected_session)) = Some d /\
     interestRate d = (JS.Number 850 / 100)%float /\
     (0 <= 850 < 2 ^ 53 ->
      exactly (JS.Number 850) 850 1 = true /\
      interestRate d = JS.nearest_quotient false 850 100 /\
      (exactly (interestRate d) 850 100 = true <-> 850 mod 25 = 0))) /\
  ((JS.Number 250 / 100)%float = 2.5%float /\ exactly 2.5 250 100 = true) /\
  ((JS.Number 850 / 100)%float = 8.5%float /\ exactly 8.5 850 100 = true).
Proof.
  apply (interest_rate_is_nearest_to_basis_points_over_100 scenario_env
           (Some user) scenario_contracts connected_session 750 scenario_record
           2000000000000000000 850 120 [7; 12]);
    first [reflexivity | lia].
Defined.

(** C7.  A call of [loadUserData] without a contracts argument throws a
    ReferenceError before any service read, because
    [const contracts = contractsObj || contracts] reads the binding it is
    initialising; the error is caught and logged and the session is left
    as it was.  [mintReputation] refreshes that way, so it never issues a
    read and never publishes a Snapshot. *)
Theorem refresh_without_contracts_never_publishes
    (env : Env) (address : option Address) (s : Session) :
  loadUserData env address None s =
    mkRun (Normal tt) s
          [ConsoleError "Error loading user data:"
             (ReferenceError "Cannot access 'contracts' before initialization")]
  /\
  (let r := mintReputation env s in
   existsb is_read (issued (events r)) = false /\
   published (events r) = false /\
   reputationData (final r) = reputationData s).
Proof.
  split; [reflexivity |].
  unfold_run. split_answers; repeat split.
Qed.

(* ===================================================================== *)
(** * Connecting the wallet *)
(* ===================================================================== *)

(** C8.  A run of [connectWallet] that fails or is declined (no wallet,
    an unusable one, a rejected account request, no signer) writes no
    identity and no service bindings, reads no service and publishes
    nothing; the loading flag is cleared or untouched, and a session that
    was unconnected is exactly as before. *)
Theorem failed_connect_leaves_session_unconnected (env : Env) (s : Session) :
  connect_fails env = true ->
  let r := connectWallet env s in
  result r = Normal tt /\
  existsb is_connection_write (events r) = false /\
  existsb is_read (issued (events r)) = false /\
  published (events r) = false /\
  final r = mkSession (account s) (provider s) (signer s) (contracts s)
                      (reputationData s) (loading (final r)) /\
  (loading (final r) = false \/ final r = s) /\
  (s = initial_session -> final r = initial_session).
Proof.
  unfold connect_fails. intros Hfail. cbv zeta. revert Hfail. unfold_run.
  destruct (window_ethereum env) as [[|] |]; unfold_run.
  - destruct (on_eth_requestAccounts env); unfold_run; simpl.
    + destruct (on_getSigner env); unfold_run; simpl; intros Hfail;
        [discriminate Hfail |].
      repeat split; auto. intros ->. reflexivity.
    + intros _. repeat split; auto. intros ->. reflexivity.
  - intros _. repeat split; auto. intros ->. reflexivity.
  - intros _. destruct s. repeat split; auto.
Qed.

Lemma failed_connect_leaves_session_unconnected_witness :
  let r := connectWallet declined_env initial_session in
  result r = Normal tt /\
  existsb is_connection_write (events r) = false /\
  existsb is_read (issued (events r)) = false /\
  published (events r) = false /\
  final r = mkSession (account initial_session) (provider initial_session)
                      (signer initial_session) (contracts initial_session)
                      (reputationData initial_session) (loading (final r)) /\
  (loading (final r) = false \/ final r = initial_session) /\
  (initial_session = initial_session -> final r = initial_session).
Proof.
  apply (failed_connect_leaves_session_unconnected declined_env initial_session).
  reflexivity.
Defined.

(** In every run of [connectWallet], a service is read only after the
    identity and the bindings are written. *)
Lemma connect_reads_follow_connection (env : Env) (s : Session) :
  reads_follow_connection false false (events (connectWallet env s)) = true.
Proof. unfold_run. split_answers; reflexivity. Qed.

(* ===================================================================== *)
(** * Sequencing of the dependent reads *)
(* ===================================================================== *)

(** C4, as stated, fails: in the scenario (score 750, every read
    succeeding) the dependent reads are not issued concurrently; each is
    issued after the one before it has settled. *)
Lemma scenario_reads_are_not_concurrent :
  let r := loadUserData scenario_env (Some user) (Some scenario_contracts)
                        connected_session in
  on_getReputationScore scenario_env (Some user) = Normal 750 /\
  published (events r) = true /\
  issued_concurrently (events r) = false.
Proof. repeat split. Qed.

(** C4, amended.  [loadUserData] awaits its reads one at a time, in the
    order score, reputation record, borrowing limit, interest rate, trust
    score, circle list: each request settles before the next is issued,
    so they are never concurrent; and a Snapshot is published only after
    all of them have been fulfilled. *)
Theorem dependent_reads_are_serialized
    (env : Env) (address : option Address) (contractsObj : option Contracts)
    (s : Session) :
  let evs := events (loadUserData env address contractsObj s) in
  one_at_a_time evs = true /\
  prefixb (issued evs) source_order = true /\
  issued_concurrently evs = false /\
  (published evs = true -> fulfilled_before_publish evs = source_order).
Proof.
  unfold_run. split_answers; repeat split;
    first [reflexivity | intros P; discriminate P].
Qed.

(* ===================================================================== *)
(** * Minting *)
(* ===================================================================== *)

(** C5, as stated, fails: in the scenario the mint is accepted and
    confirmed and the refresh fails, yet the workflow completes normally
    and announces success; no distinct error is surfaced. *)
Lemma mint_refresh_failure_is_announced_as_success :
  let r := mintReputation scenario_env connected_session in
  on_mint scenario_env (Some user) = Normal (mkTx "0x01") /\
  on_wait scenario_env (mkTx "0x01") = Normal tt /\
  existsb is_refresh_failure (events r) = true /\
  result r = Normal tt /\
  alerts (events r) = ["Reputation NFT minted successfully!"].
Proof. repeat split. Qed.

(** C5, amended.  When the mint write is accepted and confirmed and the
    refresh after it fails, the failure is logged inside [loadUserData]
    and not surfaced: [mintReputation] completes normally, clears the
    loading flag, leaves the stored Snapshot as it was and shows the
    success alert; the mint is submitted exactly once. *)
Theorem mint_with_failed_refresh
    (env : Env) (s : Session) (c : Contracts) (tx : Tx) :
  contracts s = Some c ->
  on_mint env (account s) = Normal tx ->
  on_wait env tx = Normal tt ->
  existsb is_refresh_failure (events (mintReputation env s)) = true ->
  let r := mintReputation env s in
  result r = Normal tt /\
  alerts (events r) = ["Reputation NFT minted successfully!"] /\
  issued (events r) = [m_mint; m_wait] /\
  reputationData (final r) = reputationData s /\
  loading (final r) = false.
Proof.
  intros Hc Hmint Hwait _. cbv zeta. revert Hc Hmint Hwait.
  destruct s as [acc prov sig con rep load]. unfold_run.
  intros -> ->. unfold_run. intros ->. repeat split.
Qed.

Lemma mint_with_failed_refresh_witness :
  let r := mintReputation scenario_env connected_session in
  result r = Normal tt /\
  alerts (events r) = ["Reputation NFT minted successfully!"] /\
  issued (events r) = [m_mint; m_wait] /\
  reputationData (final r) = reputationData connected_session /\
  loading (final r) = false.
Proof.
  apply (mint_with_failed_refresh scenario_env connected_session
           scenario_contracts (mkTx "0x01"));
    reflexivity.
Defined.

(* ===================================================================== *)
(** * Failures *)
(* ===================================================================== *)

(** C6, as stated, fails: with the reputation service unreachable,
    [loadUserData] completes normally, and its caller gets the same
    result and the same session as for an address that merely has no
    reputation; the failure is not an outcome the caller can inspect. *)
Lemma failed_read_is_not_surfaced :
  let failed := loadUserData reputation_down_env (Some user)
                             (Some scenario_contracts) connected_session in
  let absent := loadUserData newcomer_env (Some user)
                             (Some scenario_contracts) connected_session in
  existsb is_rejection (events failed) = true /\
  result failed = Normal tt /\
  result failed = result absent /\
  final failed = final absent.
Proof. repeat split. Qed.

(** C6, amended.  Every failure of [connectWallet], [loadUserData] or
    [mintReputation] is caught inside the operation: the operation
    completes normally, a rejected request is logged to the console, and
    no request is issued a second time.  A missing wallet is answered by
    an alert alone, and a failed mint by a log and an alert. *)
Theorem failures_are_handled_inside
    (env : Env) (address : option Address) (contractsObj : option Contracts)
    (s : Session) :
  handled_inside (connectWallet env s) /\
  handled_inside (loadUserData env address contractsObj s) /\
  handled_inside (mintReputation env s) /\
  (window_ethereum env = None ->
   connectWallet env s = mkRun (Normal tt) s [Alert "Please install MetaMask!"]) /\
  (rejects (on_mint env (account s)) = true ->
   existsb is_console_error (events (mintReputation env s)) = true /\
   alerts (events (mintReputation env s)) = ["Error minting NFT"]).
Proof.
  unfold handled_inside. repeat split.
  - unfold_run. split_answers; reflexivity.
  - unfold_run. split_answers; intros P; first [reflexivity | discriminate P].
  - unfold_run. split_answers; reflexivity.
  - unfold_run. split_answers; reflexivity.
  - unfold_run. split_answers; intros P; first [reflexivity | discriminate P].
  - unfold_run. split_answers; reflexivity.
  - unfold_run. split_answers; reflexivity.
  - unfold_run. split_answers; intros P; first [reflexivity | discriminate P].
  - unfold_run. split_answers; reflexivity.
  - intros H. unfold_run. rewrite H. reflexivity.
  - revert H. unfold_run. split_answers; simpl; intros P;
      first [reflexivity | discriminate P].
  - revert H. unfold_run. split_answers; simpl; intros P;
      first [reflexivity | discriminate P].
Qed.

(* ===================================================================== *)
(** * The view projection *)
(* ===================================================================== *)

(** C9, as stated, fails: for tier index 5 the lookups give [undefined]
    and the card renders, with an empty tier name and the text
    [undefined] as colour; nothing is raised. *)
Lemma tier_5_renders_without_error :
  JS.get tierNames (JS.Number 5) = None /\
  JS.get tierColors (JS.Number 5) = None /\
  render_card (with_tier 5) =
    Normal
      {| score_circle_background :=
           "linear-gradient(135deg, undefined, undefined99)";
         score_circle_boxShadow := "0 0 40px undefined66";
         tier_badge_color := None;
         tier_badge := " Tier";
         total_borrowed := Some "5.00 ETH";
         total_repaid := Some "4.80 ETH";
         trust_circles := "2";
         borrowing_limit := Some "2.00 ETH" |}.
Proof. repeat split. Qed.

(** C9, amended.  For a tier index [t] as the service can return it (a
    uint8), the view maps 0 to 4 to Bronze, Silver, Gold, Platinum and
    Diamond with their colours, and any other index to [undefined] for
    both; the card always renders, with the name (or nothing) before
    [" Tier"] and the colour (or none) as the badge's colour. *)
Theorem tier_lookup (t : Z) :
  0 <= t < 256 ->
  let name := JS.get tierNames (JS.Number t) in
  let color := JS.get tierColors (JS.Number t) in
  (name, color) =
    match t with
    | 0 => (Some "Bronze", Some "#CD7F32")
    | 1 => (Some "Silver", Some "#C0C0C0")
    | 2 => (Some "Gold", Some "#FFD700")
    | 3 => (Some "Platinum", Some "#E5E4E2")
    | 4 => (Some "Diamond", Some "#B9F2FF")
    | _ => (None, None)
    end /\
  exists card,
    render_card (with_tier t) = Normal card /\
    tier_badge card = JS.jsx_child name ++ " Tier" /\
    tier_badge_color card = color.
Proof.
  intros Ht. cbv zeta.
  split; [| eexists; repeat split].
  assert (E : exists n, (n < 256)%nat /\ t = Z.of_nat n)
    by (exists (Z.to_nat t); lia).
  destruct E as (n & Hn & ->). clear Ht.
  do 256 (destruct n as [| n]; [vm_compute; reflexivity |]).
  lia.
Qed.

Lemma tier_lookup_witness :
  let name := JS.get tierNames (JS.Number 2) in
  let color := JS.get tierColors (JS.Number 2) in
  (name, color) = (Some "Gold", Some "#FFD700") /\
  exists card,
    render_card (with_tier 2) = Normal card /\
    tier_badge card = JS.jsx_child name ++ " Tier" /\
    tier_badge_color card = color.
Proof. apply (tier_lookup 2). lia. Defined.

(* ===================================================================== *)
(** * The scenario *)
(* ===================================================================== *)

(** C10, as stated, fails: the Snapshot [loadUserData] stores in the
    scenario is not the one with the amounts ["5.00"], ["4.80"] and
    ["2.00"]; [formatEther] gives ["5.0"], ["4.8"] and ["2.0"]. *)
Lemma scenario_snapshot_is_not_the_claimed_one :
  reputationData
    (final (loadUserData scenario_env (Some user) (Some scenario_contracts)
                         connected_session))
  <> Some claimed_snapshot.
Proof. vm_compute. discriminate. Qed.

(** C10, amended.  In the scenario [loadUserData] stores the Snapshot
    with score 750, tier 2, loansCompleted 3, totalBorrowed ["5.0"],
    totalRepaid ["4.8"], borrowingLimit ["2.0"], interestRate 8.5,
    trustScore 120 and circles 2; the name Gold and the two-digit amounts
    5.00, 4.80 and 2.00 are what the view renders from it. *)
Theorem scenario_snapshot :
  let r := loadUserData scenario_env (Some user) (Some scenario_contracts)
                        connected_session in
  reputationData (final r) = Some stored_snapshot /\
  published (events r) = true /\
  render_card stored_snapshot =
    Normal
      {| score_circle_background :=
           "linear-gradient(135deg, #FFD700, #FFD70099)";
         score_circle_boxShadow := "0 0 40px #FFD70066";
         tier_badge_color := Some "#FFD700";
         tier_badge := "Gold Tier";
         total_borrowed := Some "5.00 ETH";
         total_repaid := Some "4.80 ETH";
         trust_circles := "2";
         borrowing_limit := Some "2.00 ETH" |}.
Proof. repeat split. Qed.

(* ===================================================================== *)
(** * More on the aggregation *)
(* ===================================================================== *)

(** X1.  [loadUserData] writes nothing but the stored Snapshot: identity,
    provider, signer, bindings and loading flag are as before, whatever
    the services answer. *)
Theorem loadUserData_changes_only_the_snapshot
    (env : Env) (address : option Address) (contractsObj : option Contracts)
    (s : Session) :
  let r := loadUserData env address contractsObj s in
  final r = with_reputationData s (reputationData (final r)).
Proof.
  unfold with_reputationData. unfold_run.
  split_answers; destruct s; reflexivity.
Qed.

(** X2.  [loadUserData] publishes exactly when it is given bindings, the
    score read is positive and the five dependent reads are all
    fulfilled.  It publishes at most once, as its last step, and what it
    published is what the session then holds. *)
Theorem publication_iff_aggregation_succeeds
    (env : Env) (address : option Address) (contractsObj : option Contracts)
    (s : Session) :
  let r := loadUserData env address contractsObj s in
  published (events r) =
    match contractsObj with
    | Some _ => aggregation_succeeds env address
    | None => false
    end /\
  (publications (events r) = [] \/
   exists d before,
     publications (events r) = [d] /\
     events r = (before ++ [SetReputationData d])%list /\
     reputationData (final r) = Some d).
Proof.
  unfold aggregation_succeeds. unfold_run.
  split_answers; simpl; split; try reflexivity; try (left; reflexivity).
  right. eexists. eexists (_ :: _ :: _ :: _ :: _ :: _ :: _ :: _ :: _ :: _ :: _ :: [_]).
  repeat split.
Qed.

(** X3.  The Snapshot keeps no more than it shows: two aggregations whose
    records agree on score, tier, loans completed, total borrowed and
    total repaid, with the same limit, rate and trust score and circle
    lists of the same length, store the same Snapshot; [lastUpdated] and
    the circle identifiers are dropped. *)
Theorem snapshot_drops_lastUpdated_and_circle_ids
    (env1 env2 : Env) (address : option Address) (c : Contracts) (s : Session)
    (sc1 sc2 : Z) (data1 data2 : ReputationData) (limit rate trust : Z)
    (ids1 ids2 : list Z) :
  on_getReputationScore env1 address = Normal sc1 -> sc1 > 0 ->
  on_getReputationScore env2 address = Normal sc2 -> sc2 > 0 ->
  on_getReputationData env1 address = Normal data1 ->
  on_getReputationData env2 address = Normal data2 ->
  on_getBorrowingLimit env1 address = Normal limit ->
  on_getBorrowingLimit env2 address = Normal limit ->
  on_getInterestRate env1 address = Normal rate ->
  on_getInterestRate env2 address = Normal rate ->
  on_getTrustScore env1 address = Normal trust ->
  on_getTrustScore env2 address = Normal trust ->
  on_getUserCircles env1 address = Normal ids1 ->
  on_getUserCircles env2 address = Normal ids2 ->
  data_score data1 = data_score data2 ->
  data_currentTier data1 = data_currentTier data2 ->
  data_loansCompleted data1 = data_loansCompleted data2 ->
  data_totalBorrowed data1 = data_totalBorrowed data2 ->
  data_totalRepaid data1 = data_totalRepaid data2 ->
  List.length ids1 = List.length ids2 ->
  final (loadUserData env1 address (Some c) s) =
  final (loadUserData env2 address (Some c) s).
Proof.
  intros S1 P1 S2 P2 D1 D2 L1 L2 R1 R2 T1 T2 C1 C2 E1 E2 E3 E4 E5 E6.
  rewrite (loadUserData_success env1 address s c sc1 data1 limit rate trust ids1)
    by assumption.
  rewrite (loadUserData_success env2 address s c sc2 data2 limit rate trust ids2)
    by assumption.
  simpl. rewrite E1, E2, E3, E4, E5, E6. reflexivity.
Qed.

Lemma snapshot_drops_lastUpdated_and_circle_ids_witness :
  final (loadUserData scenario_env (Some user) (Some scenario_contracts)
                      connected_session) =
  final (loadUserData
           {| window_ethereum := Some true;
              on_eth_requestAccounts := Normal [user];
              on_getSigner := Normal JsonRpcSigner;
              on_getReputationScore := fun _ => Normal 1;
              on_getReputationData := fun _ =>
                Normal (mkReputationData 750 3 5000000000000000000
                                         4800000000000000000 42 2);
              on_getBorrowingLimit := fun _ => Normal 2000000000000000000;
              on_getInterestRate := fun _ => Normal 850;
              on_getTrustScore := fun _ => Normal 120;
              on_getUserCircles := fun _ => Normal [1; 1];
              on_mint := fun _ => Normal (mkTx "0x01");
              on_wait := fun _ => Normal tt |}
           (Some user) (Some scenario_contracts) connected_session).
Proof.
  apply (snapshot_drops_lastUpdated_and_circle_ids scenario_env _ (Some user)
           scenario_contracts connected_session 750 1 scenario_record
           (mkReputationData 750 3 5000000000000000000 4800000000000000000 42 2)
           2000000000000000000 850 120 [7; 12] [1; 1]);
    first [reflexivity | lia].
Defined.

(** X4.  A successful aggregation replaces the stored Snapshot as a
    whole: the session it leaves does not depend on the Snapshot that was
    stored before. *)
Theorem refresh_replaces_the_snapshot_wholesale
    (env : Env) (address : option Address) (c : Contracts) (s : Session)
    (before : option Snapshot) :
  aggregation_succeeds env address = true ->
  final (loadUserData env address (Some c) (with_reputationData s before)) =
  final (loadUserData env address (Some c) s).
Proof.
  unfold aggregation_succeeds, with_reputationData. unfold_run.
  split_answers; simpl; intros H; first [reflexivity | discriminate H].
Qed.

Lemma refresh_replaces_the_snapshot_wholesale_witness :
  final (loadUserData scenario_env (Some user) (Some scenario_contracts)
           (with_reputationData connected_session (Some claimed_snapshot))) =
  final (loadUserData scenario_env (Some user) (Some scenario_contracts)
           connected_session).
Proof.
  apply (refresh_replaces_the_snapshot_wholesale scenario_env (Some user)
           scenario_contracts connected_session (Some claimed_snapshot)).
  reflexivity.
Defined.

(** X5.  The score that is stored is the record's, not the one the guard
    read: when the score read is positive but the record's score is 0, a
    Snapshot with score 0 is published. *)
Theorem stored_score_is_the_records
    (env : Env) (address : option Address) (c : Contracts) (s : Session)
    (sc : Z) (data : ReputationData) :
  on_getReputationScore env address = Normal sc ->
  sc > 0 ->
  on_getReputationData env address = Normal data ->
  rejects (on_getBorrowingLimit env address) = false ->
  rejects (on_getInterestRate env address) = false ->
  rejects (on_getTrustScore env address) = false ->
  rejects (on_getUserCircles env address) = false ->
  exists d,
    reputationData (final (loadUserData env address (Some c) s)) = Some d /\
    score d = JS.Number (data_score data) /\
    (data_score data = 0 -> score d = 0%float).
Proof.
  intros Hs Hpos Hd Hl Hr Ht Hc.
  destruct (on_getBorrowingLimit env address) as [limit |] eqn:El;
    [| discriminate Hl].
  destruct (on_getInterestRate env address) as [rate |] eqn:Er;
    [| discriminate Hr].
  destruct (on_getTrustScore env address) as [trust |] eqn:Et;
    [| discriminate Ht].
  destruct (on_getUserCircles env address) as [ids |] eqn:Ec;
    [| discriminate Hc].
  rewrite (loadUserData_success env address s c sc data limit rate trust ids)
    by assumption.
  eexists. split; [reflexivity |]. split; [reflexivity |].
  simpl. intros ->. reflexivity.
Qed.

Lemma stored_score_is_the_records_witness :
  exists d,
    reputationData
      (final (loadUserData inconsistent_env (Some user)
                           (Some scenario_contracts) connected_session))
    = Some d /\
    score d = JS.Number (data_score (mkReputationData 0 0 0 0 0 0)) /\
    (data_score (mkReputationData 0 0 0 0 0 0) = 0 -> score d = 0%float).
Proof.
  apply (stored_score_is_the_records inconsistent_env (Some user)
           scenario_contracts connected_session 1
           (mkReputationData 0 0 0 0 0 0));
    first [reflexivity | lia].
Defined.

(** X6.  Every request that names an identity names the right one:
    [loadUserData] reads only for the address it is given,
    [connectWallet] only for the first account the wallet returned, and
    [mintReputation] mints only for the account of the session. *)
Theorem requests_name_the_session_identity
    (env : Env) (address : option Address) (contractsObj : option Contracts)
    (s : Session) :
  Forall (fun c => subject c = Some address)
         (issued_calls (events (loadUserData env address contractsObj s))) /\
  Forall (fun c =>
            subject c = None \/
            exists accounts,
              on_eth_requestAccounts env = Normal accounts /\
              subject c = Some (hd_error accounts))
         (issued_calls (events (connectWallet env s))) /\
  Forall (fun c => subject c = None \/ subject c = Some (account s))
         (issued_calls (events (mintReputation env s))).
Proof.
  repeat split.
  - unfold_run. split_answers; simpl; repeat constructor.
  - unfold_run. split_answers; simpl;
      repeat (constructor;
              [first [left; reflexivity
                     | right; eexists; split; reflexivity] |]);
      constructor.
  - unfold_run. split_answers; simpl;
      repeat (constructor; [first [left; reflexivity | right; reflexivity] |]);
      constructor.
Qed.

(* ===================================================================== *)
(** * More on connecting and minting *)
(* ===================================================================== *)

(** The run of [connectWallet] once the wallet has granted the
    connection. *)
Lemma connectWallet_granted
    (env : Env) (s : Session) (accounts : list Address) (g : Signer) :
  window_ethereum env = Some true ->
  on_eth_requestAccounts env = Normal accounts ->
  on_getSigner env = Normal g ->
  connectWallet env s =
  mkRun (Normal tt)
        (with_loading
           (final (loadUserData env (hd_error accounts) (Some (bindings g))
                     (mkSession (hd_error accounts) (Some BrowserProvider)
                                (Some g) (Some (bindings g))
                                (reputationData s) true)))
           false)
        ([SetLoading true;
          Issued eth_requestAccounts; Settled eth_requestAccounts true;
          Issued getSigner; Settled getSigner true;
          SetProvider BrowserProvider; SetSigner g;
          SetAccount (hd_error accounts); SetContracts (bindings g)]
           ++ events (loadUserData env (hd_error accounts) (Some (bindings g))
                        (mkSession (hd_error accounts) (Some BrowserProvider)
                                   (Some g) (Some (bindings g))
                                   (reputationData s) true))
           ++ [SetLoading false])%list.
Proof.
  intros Hw Ha Hg. unfold with_loading, bindings. unfold_run.
  rewrite Hw. unfold_run. rewrite Ha, Hg. unfold_run.
  split_answers; reflexivity.
Qed.

(** The session [loadUserData] leaves, by the success of the
    aggregation. *)
Lemma loadUserData_final
    (env : Env) (address : option Address) (c : Contracts) (s : Session) :
  (aggregation_succeeds env address = true ->
   exists d,
     final (loadUserData env address (Some c) s) =
     with_reputationData s (Some d)) /\
  (aggregation_succeeds env address = false ->
   final (loadUserData env address (Some c) s) = s).
Proof.
  unfold aggregation_succeeds, with_reputationData. unfold_run.
  split_answers; simpl; split; intros H;
    first [discriminate H | reflexivity | eexists; reflexivity].
Qed.

(** X7.  A connection that goes through is the two wallet requests, the
    four state writes, then the aggregation for the first account with
    the fresh bindings, then the loading flag cleared: the run of
    [connectWallet] is the run of [loadUserData] from the connected
    session, between that prefix and the final [setLoading(false)]. *)
Theorem connect_then_aggregate
    (env : Env) (s : Session) (accounts : list Address) (g : Signer) :
  window_ethereum env = Some true ->
  on_eth_requestAccounts env = Normal accounts ->
  on_getSigner env = Normal g ->
  let connected :=
    mkSession (hd_error accounts) (Some BrowserProvider) (Some g)
              (Some (bindings g)) (reputationData s) true in
  let r := loadUserData env (hd_error accounts) (Some (bindings g)) connected in
  connectWallet env s =
  mkRun (Normal tt) (with_loading (final r) false)
        ([SetLoading true;
          Issued eth_requestAccounts; Settled eth_requestAccounts true;
          Issued getSigner; Settled getSigner true;
          SetProvider BrowserProvider; SetSigner g;
          SetAccount (hd_error accounts); SetContracts (bindings g)]
           ++ events r ++ [SetLoading false])%list.
Proof. exact (connectWallet_granted env s accounts g). Qed.

Lemma connect_then_aggregate_witness :
  let connected :=
    mkSession (hd_error [user]) (Some BrowserProvider) (Some JsonRpcSigner)
              (Some (bindings JsonRpcSigner)) (reputationData initial_session)
              true in
  let r := loadUserData scenario_env (hd_error [user])
                        (Some (bindings JsonRpcSigner)) connected in
  connectWallet scenario_env initial_session =
  mkRun (Normal tt) (with_loading (final r) false)
        ([SetLoading true;
          Issued eth_requestAccounts; Settled eth_requestAccounts true;
          Issued getSigner; Settled getSigner true;
          SetProvider BrowserProvider; SetSigner JsonRpcSigner;
          SetAccount (hd_error [user]); SetContracts (bindings JsonRpcSigner)]
           ++ events r ++ [SetLoading false])%list.
Proof.
  apply (connect_then_aggregate scenario_env initial_session [user]
           JsonRpcSigner);
    reflexivity.
Defined.

(** X8.  The loading flag brackets the work: in [connectWallet] and in
    [mintReputation] every request is issued and settles between the
    run's [setLoading(true)] and its [setLoading(false)]; the flag is
    down when [mintReputation] ends, and when [connectWallet] ends unless
    there is no wallet (then it is untouched). *)
Theorem loading_brackets_the_requests (env : Env) (s : Session) :
  requests_while_loading false (events (connectWallet env s)) = true /\
  requests_while_loading false (events (mintReputation env s)) = true /\
  loading (final (mintReputation env s)) = false /\
  loading (final (connectWallet env s)) =
    match window_ethereum env with
    | Some _ => false
    | None => loading s
    end.
Proof.
  repeat split; unfold_run; split_answers; reflexivity.
Qed.

(** X9.  [mintReputation] leaves the session as it found it but for the
    loading flag, which it clears: whatever the services answer, it never
    changes the identity, the bindings or the stored Snapshot. *)
Theorem mint_changes_only_the_loading_flag (env : Env) (s : Session) :
  final (mintReputation env s) = with_loading s false.
Proof.
  unfold with_loading. unfold_run. split_answers; reflexivity.
Qed.

(** X10.  Every run of [mintReputation] shows exactly one alert: the
    success message when the session has bindings and the mint and its
    confirmation are both fulfilled, the error message otherwise. *)
Theorem mint_shows_exactly_one_alert (env : Env) (s : Session) :
  alerts (events (mintReputation env s)) =
    [if mint_confirmed env s
     then "Reputation NFT minted successfully!"
     else "Error minting NFT"].
Proof.
  destruct s as [acc prov sig con rep load].
  unfold mint_confirmed. simpl. unfold_run.
  destruct con; [| reflexivity].
  destruct (on_mint env acc) as [tx |]; [| reflexivity].
  destruct (on_wait env tx); reflexivity.
Qed.

(** X11.  The requests of [mintReputation]: none without bindings (the
    read of [contracts.reputationNFT] on [null] throws first), the mint
    alone when it is rejected, the mint then its confirmation otherwise;
    never a read of a service. *)
Theorem mint_request_sequence (env : Env) (s : Session) :
  issued_calls (events (mintReputation env s)) =
    match contracts s with
    | None => []
    | Some _ =>
        match on_mint env (account s) with
        | Normal tx => [mint (account s); wait tx]
        | Throw _ => [mint (account s)]
        end
    end /\
  (contracts s = None ->
   events (mintReputation env s) =
     [SetLoading true;
      ConsoleError "Error minting:"
        (TypeError "Cannot read properties of null (reading 'reputationNFT')");
      SetLoading false;
      Alert "Error minting NFT"]).
Proof.
  destruct s as [acc prov sig con rep load]. simpl. split.
  - unfold_run. destruct con; [| reflexivity].
    destruct (on_mint env acc) as [tx |]; [| reflexivity].
    destruct (on_wait env tx); reflexivity.
  - intros ->. reflexivity.
Qed.

(* ===================================================================== *)
(** * The view and the workflows together *)
(* ===================================================================== *)

Lemma length_append (a b : string) :
  String.length (a ++ b) = (String.length a + String.length b)%nat.
Proof. induction a as [| ch a IH]; simpl; [reflexivity | now rewrite IH]. Qed.

Lemma length_substring (s : string) :
  forall n m,
    String.length (substring n m s) = Nat.min m (String.length s - n).
Proof.
  induction s as [| ch s IH]; intros n m.
  - destruct n, m; reflexivity.
  - destruct n as [| n]; simpl.
    + destruct m as [| m]; simpl; [reflexivity |].
      rewrite IH. now rewrite Nat.sub_0_r.
    + apply IH.
Qed.

(** Asking [substring] for more than is left gives what is left. *)
Lemma substring_saturates (s : string) :
  forall n m k,
    (String.length s - n <= m)%nat -> (String.length s - n <= k)%nat ->
    substring n m s = substring n k s.
Proof.
  induction s as [| ch s IH]; intros n m k Hm Hk.
  - destruct n, m, k; reflexivity.
  - destruct n as [| n]; simpl in *.
    + destruct m as [| m]; [lia |]. destruct k as [| k]; [lia |].
      f_equal. apply IH; lia.
    + apply IH; assumption.
Qed.

(** X12.  The wallet badge is the first six characters of the account,
    three dots and its last four; an account shorter than that appears
    whole on the side it is too short for.  For a 42-character address
    the badge has 13 characters. *)
Theorem wallet_badge_shape (account : string) :
  let len := String.length account in
  wallet_badge account =
    substring 0 6 account ++ "..." ++ substring (len - 4) 4 account /\
  String.length (wallet_badge account) = (Nat.min 6 len + 3 + Nat.min 4 len)%nat /\
  (len = 42%nat -> String.length (wallet_badge account) = 13%nat).
Proof.
  intros len.
  assert (E : wallet_badge account =
              substring 0 6 account ++ "..." ++ substring (len - 4) 4 account).
  { assert (S : forall n m n' m',
               n = n' ->
               Nat.min m (len - n) = Nat.min m' (len - n') ->
               substring n m account = substring n' m' account).
    { intros n m n' m' <- Hmin.
      destruct (Nat.le_gt_cases (len - n) m) as [Hm | Hm];
        destruct (Nat.le_gt_cases (len - n) m') as [Hm' | Hm'].
      - apply substring_saturates; assumption.
      - lia.
      - lia.
      - f_equal. lia. }
    unfold wallet_badge, JSString.slice, JSString.relative. fold len.
    replace (0 <? 0) with false by reflexivity.
    replace (6 <? 0) with false by reflexivity.
    replace (-4 <? 0) with true by reflexivity.
    f_equal; [| f_equal]; apply S; lia. }
  split; [exact E |].
  assert (L : String.length (wallet_badge account)
              = (Nat.min 6 len + 3 + Nat.min 4 len)%nat).
  { rewrite E, !length_append, !length_substring. fold len.
    change (String.length "...") with 3%nat. lia. }
  split; [exact L |]. intros H. rewrite L, H. reflexivity.
Qed.

(** The session [mintReputation] leaves. *)
Lemma mintReputation_final (env : Env) (s : Session) :
  final (mintReputation env s) =
  mkSession (account s) (provider s) (signer s) (contracts s)
            (reputationData s) false.
Proof. unfold_run. split_answers; reflexivity. Qed.

(** X13.  Clicking the header's connect button when the connection fails
    gives the same view back: the button is there again, enabled. *)
Theorem failed_connect_gives_the_view_back
    (env : Env) (s : Session) (activeTab : Tab) (b : Button) (m : MainView) :
  render s activeTab = Normal (mkView (HeaderConnect b) m) ->
  button_disabled b = false ->
  connect_fails env = true ->
  render (final (click env (button_onClick b) s)) activeTab = render s activeTab.
Proof.
  destruct s as [acc prov sig con rep load]. intros Hview Hb Hfail.
  assert (E : load = false /\ button_onClick b = on_connectWallet).
  { unfold render in Hview. simpl in Hview.
    destruct acc as [[| ch acc] |]; simpl in Hview.
    - inversion Hview; subst. simpl in Hb. now split.
    - destruct activeTab; [destruct rep |..]; simpl in Hview; inversion Hview.
    - inversion Hview; subst. simpl in Hb. now split. }
  destruct E as (-> & ->). simpl. f_equal.
  revert Hfail. unfold connect_fails. unfold_run.
  destruct (window_ethereum env) as [[|] |]; unfold_run; [| reflexivity ..].
  destruct (on_eth_requestAccounts env); unfold_run; [| reflexivity].
  destruct (on_getSigner env); unfold_run; simpl; intros Hfail;
    [discriminate Hfail | reflexivity].
Qed.

Lemma failed_connect_gives_the_view_back_witness :
  render (final (click declined_env
                       (button_onClick
                          (mkButton "Connect Wallet" false on_connectWallet))
                       initial_session))
         tab_dashboard
  = render initial_session tab_dashboard.
Proof.
  apply (failed_connect_gives_the_view_back declined_env initial_session
           tab_dashboard (mkButton "Connect Wallet" false on_connectWallet)
           (Hero (mkButton "Get Started" false on_connectWallet)));
    reflexivity.
Defined.

(** X14.  After a connection that goes through for a non-empty first
    account, from a session without a Snapshot, the header shows that
    account's badge and the dashboard shows the reputation card when the
    aggregation succeeded and the enabled mint button when it did not. *)
Theorem view_after_connecting
    (env : Env) (s : Session) (ch : ascii) (a : string)
    (others : list Address) (g : Signer) :
  window_ethereum env = Some true ->
  on_eth_requestAccounts env = Normal (String ch a :: others) ->
  on_getSigner env = Normal g ->
  reputationData s = None ->
  exists panel,
    render (final (connectWallet env s)) tab_dashboard =
      Normal (mkView (HeaderWallet (wallet_badge (String ch a)))
                     (Tabs tab_dashboard (DashboardPanel panel))) /\
    (aggregation_succeeds env (Some (String ch a)) = true ->
     exists card, panel = Reputation card) /\
    (aggregation_succeeds env (Some (String ch a)) = false ->
     panel = Welcome (mkButton "Mint Reputation NFT" false on_mintReputation)).
Proof.
  intros Hw Ha Hg Hrep.
  rewrite (connectWallet_granted env s _ g Hw Ha Hg). simpl hd_error.
  rewrite Hrep. cbn [final].
  match goal with
  | |- context [final (loadUserData ?e ?me ?c ?connected)] =>
      destruct (loadUserData_final e me (bindings g) connected) as [Hyes Hno]
  end.
  destruct (aggregation_succeeds env (Some (String ch a))) eqn:E.
  - destruct (Hyes E) as [d ->].
    eexists. split; [reflexivity |]. split; [| discriminate].
    intros _. eexists. reflexivity.
  - rewrite (Hno E).
    eexists. split; [reflexivity |]. split; [discriminate | reflexivity].
Qed.

Lemma view_after_connecting_witness :
  exists panel,
    render (final (connectWallet newcomer_env initial_session)) tab_dashboard =
      Normal (mkView (HeaderWallet (wallet_badge user))
                     (Tabs tab_dashboard (DashboardPanel panel))) /\
    (aggregation_succeeds newcomer_env (Some user) = true ->
     exists card, panel = Reputation card) /\
    (aggregation_succeeds newcomer_env (Some user) = false ->
     panel = Welcome (mkButton "Mint Reputation NFT" false on_mintReputation)).
Proof.
  apply (view_after_connecting newcomer_env initial_session "0"%char
           "x52908400098527886E0F7030069857D2E4169EE7" [] JsonRpcSigner);
    reflexivity.
Defined.

(** X15.  Clicking the dashboard's mint button never changes the view:
    whatever the services answer, once [mintReputation] has run the
    dashboard shows the same invitation to mint, its button enabled. *)
Theorem minting_gives_the_view_back
    (env : Env) (s : Session) (h : HeaderView) (b : Button) :
  render s tab_dashboard =
    Normal (mkView h (Tabs tab_dashboard (DashboardPanel (Welcome b)))) ->
  button_disabled b = false ->
  render (final (click env (button_onClick b) s)) tab_dashboard =
  render s tab_dashboard.
Proof.
  destruct s as [acc prov sig con rep load]. intros Hview Hb.
  assert (E : load = false /\ button_onClick b = on_mintReputation).
  { unfold render in Hview. simpl in Hview.
    destruct acc as [[| ch acc] |]; simpl in Hview;
      [inversion Hview | | inversion Hview].
    destruct rep as [d |]; simpl in Hview; inversion Hview; subst.
    simpl in Hb. now split. }
  destruct E as (-> & ->). simpl.
  rewrite mintReputation_final. reflexivity.
Qed.

Lemma minting_gives_the_view_back_witness :
  render (final (click scenario_env
                       (button_onClick
                          (mkButton "Mint Reputation NFT" false on_mintReputation))
                       connected_session))
         tab_dashboard
  = render connected_session tab_dashboard.
Proof.
  apply (minting_gives_the_view_back scenario_env connected_session
           (HeaderWallet (wallet_badge user))
           (mkButton "Mint Reputation NFT" false on_mintReputation));
    reflexivity.
Defined.

(** X16.  When the wallet grants the connection but returns no account,
    [accounts[0]] is [undefined]: the session gets a provider, a signer
    and bindings but no identity, the aggregation is attempted for
    [undefined], and the view still shows the hero and the enabled
    connect button. *)
Theorem connect_without_accounts
    (env : Env) (s : Session) (g : Signer) (activeTab : Tab) :
  window_ethereum env = Some true ->
  on_eth_requestAccounts env = Normal [] ->
  on_getSigner env = Normal g ->
  let r := connectWallet env s in
  account (final r) = None /\
  contracts (final r) = Some (bindings g) /\
  In (getReputationScore None) (issued_calls (events r)) /\
  render (final r) activeTab =
    Normal (mkView
              (HeaderConnect (mkButton "Connect Wallet" false on_connectWallet))
              (Hero (mkButton "Get Started" false on_connectWallet))).
Proof.
  intros Hw Ha Hg. cbv zeta.
  rewrite (connectWallet_granted env s _ g Hw Ha Hg). simpl hd_error.
  unfold with_loading, bindings. unfold_run.
  split_answers; repeat split; simpl; auto.
Qed.

Lemma connect_without_accounts_witness :
  let r := connectWallet no_account_env initial_session in
  account (final r) = None /\
  contracts (final r) = Some (bindings JsonRpcSigner) /\
  In (getReputationScore None) (issued_calls (events r)) /\
  render (final r) tab_dashboard =
    Normal (mkView
              (HeaderConnect (mkButton "Connect Wallet" false on_connectWallet))
              (Hero (mkButton "Get Started" false on_connectWallet))).
Proof.
  apply (connect_without_accounts no_account_env initial_session JsonRpcSigner
           tab_dashboard);
    reflexivity.
Defined.

(* ===================================================================== *)
(** * Amounts as text *)
(* ===================================================================== *)

Lemma parseFloat_eqn (s : string) :
  JS.parseFloat s =
  let cs := list_ascii_of_string s in
  let '(negative, body) :=
    match cs with
    | "-"%char :: r => (true, r)
    | "+"%char :: r => (false, r)
    | _ => (false, cs)
    end in
  let '(whole, rest) := span_digits body in
  match rest with
  | [] =>
      match whole with
      | [] => None
      | _ => Some (JS.nearest_quotient negative (JS.digits_value whole) 1)
      end
  | "."%char :: r =>
      let '(frac, rest') := span_digits r in
      match rest', (whole ++ frac)%list with
      | [], _ :: _ =>
          Some (JS.nearest_quotient negative (JS.digits_value (whole ++ frac))
                                 (10 ^ Z.of_nat (List.length frac)))
      | _, _ => None
      end
  | _ => None
  end.
Proof. reflexivity. Qed.

Lemma span_digits_all (ds : list ascii) :
  digits ds -> span_digits ds = (ds, []).
Proof.
  unfold digits. induction ds as [| c ds IH]; simpl; [reflexivity |].
  intros H. apply andb_prop in H. destruct H as [Hc Hds].
  rewrite Hc, (IH Hds). reflexivity.
Qed.

Lemma span_digits_dot (ds rest : list ascii) :
  digits ds -> span_digits (ds ++ "."%char :: rest) = (ds, "."%char :: rest).
Proof.
  unfold digits. induction ds as [| c ds IH]; simpl; [reflexivity |].
  intros H. apply andb_prop in H. destruct H as [Hc Hds].
  rewrite Hc, (IH Hds). reflexivity.
Qed.

(* digits of a uint *)
Lemma uint_chars_digits (d : Decimal.uint) :
  digits (list_ascii_of_string (NilEmpty.string_of_uint d)).
Proof. unfold digits. induction d; simpl; auto. Qed.

Ltac digit_literals :=
  repeat match goal with
         | |- context [JS.digit_value ?c] =>
             let v := eval vm_compute in (JS.digit_value c) in
             change (JS.digit_value c) with v
         end.

Lemma uint_value_acc (d : Decimal.uint) :
  forall acc,
    fold_left step (list_ascii_of_string (NilEmpty.string_of_uint d)) (Z.pos acc)
    = Z.pos (Pos.of_uint_acc d acc).
Proof.
  induction d; intros acc;
    cbn [NilEmpty.string_of_uint list_ascii_of_string fold_left Pos.of_uint_acc];
    [reflexivity | ..];
    rewrite <- IHd; f_equal; unfold step; digit_literals; lia.
Qed.

Lemma uint_value (d : Decimal.uint) :
  JS.digits_value (list_ascii_of_string (NilEmpty.string_of_uint d))
  = Z.of_N (Pos.of_uint d).
Proof.
  unfold JS.digits_value. fold step.
  induction d;
    cbn [NilEmpty.string_of_uint list_ascii_of_string fold_left Pos.of_uint Z.of_N];
    [reflexivity | ..];
    unfold step at 2; digit_literals;
    first [exact IHd | apply uint_value_acc].
Qed.

(** The decimal digits of a non-negative bigint. *)
Lemma bigint_digits (n : Z) :
  0 <= n ->
  let ds := list_ascii_of_string (JS.bigint_toString n) in
  digits ds /\ ds <> [] /\ JS.digits_value ds = n.
Proof.
  intros Hn. unfold JS.bigint_toString.
  destruct n as [| p | p]; [repeat split; discriminate | | lia].
  cbn [Z.to_int NilZero.string_of_int].
  unfold NilZero.string_of_uint.
  pose proof (Unsigned.to_uint_nonnil p) as Hnil.
  destruct (Pos.to_uint p) eqn:E; [contradiction | ..];
    rewrite <- E; (split; [apply uint_chars_digits |]);
    (split; [rewrite E; discriminate |]);
    rewrite uint_value, Unsigned.of_to; reflexivity.
Qed.

Lemma trims_agree : Ethers.trim_decimal_rev = Ethers.trim_whole.
Proof. reflexivity. Qed.

Lemma digits_app (a b : list ascii) : digits (a ++ b) <-> digits a /\ digits b.
Proof. unfold digits. rewrite forallb_app. apply andb_true_iff. Qed.

Lemma digits_zeros (k : nat) : digits (repeat "0"%char k).
Proof. unfold digits. induction k; simpl; auto. Qed.

Lemma digits_rev (a : list ascii) : digits a -> digits (rev a).
Proof.
  unfold digits. rewrite !forallb_forall. intros H x Hx.
  apply H. now apply in_rev.
Qed.

Lemma fold_step (b : list ascii) :
  forall acc,
    fold_left step b acc = acc * 10 ^ Z.of_nat (List.length b) + fold_left step b 0.
Proof.
  induction b as [| c b IH]; intros acc.
  - simpl. lia.
  - cbn [fold_left List.length]. rewrite IH, (IH (step 0 c)).
    rewrite Nat2Z.inj_succ, Z.pow_succ_r by lia. unfold step. lia.
Qed.

Lemma digits_value_app (a b : list ascii) :
  JS.digits_value (a ++ b) =
  JS.digits_value a * 10 ^ Z.of_nat (List.length b) + JS.digits_value b.
Proof.
  unfold JS.digits_value. fold step. rewrite fold_left_app. apply fold_step.
Qed.

Lemma digits_value_zeros (k : nat) : JS.digits_value (repeat "0"%char k) = 0.
Proof.
  unfold JS.digits_value. fold step.
  induction k as [| k IH]; [reflexivity |]. cbn [repeat fold_left]. exact IH.
Qed.

Lemma rev_zeros (k : nat) : rev (repeat "0"%char k) = repeat "0"%char k.
Proof.
  induction k as [| k IH]; [reflexivity |].
  cbn [repeat rev]. rewrite IH. symmetry. apply repeat_cons.
Qed.

(** A digit, one of the ten. *)
Ltac digit_cases c H :=
  destruct c as [[] [] [] [] [] [] [] []]; try discriminate H.

(** Trimming zeros in front of a point stops at the last digit. *)
Lemma trim_whole_digits (D : list ascii) :
  forall R,
    digits D -> D <> [] ->
    exists j D',
      Ethers.trim_whole (D ++ "."%char :: R) = (D' ++ "."%char :: R)%list /\
      D = (repeat "0"%char j ++ D')%list /\ D' <> [] /\ digits D'.
Proof.
  induction D as [| c D IH]; intros R HD Hne; [contradiction |].
  assert (Hc : JS.is_digit c = true /\ digits D).
  { unfold digits in *. simpl in HD. now apply andb_prop in HD. }
  destruct Hc as [Hc HDs].
  destruct D as [| c2 D].
  - exists 0%nat, [c]. split; [| repeat split; [discriminate | exact HD]].
    digit_cases c Hc; reflexivity.
  - assert (Hc2 : JS.is_digit c2 = true).
    { unfold digits in HDs. simpl in HDs. now apply andb_prop in HDs. }
    destruct (IH R HDs ltac:(discriminate)) as (j & D' & Ht & HDeq & Hne' & Hd').
    destruct (Ascii.eqb c "0"%char) eqn:E.
    + apply Ascii.eqb_eq in E. subst c.
      exists (S j), D'. split; [| split; [| split; assumption]].
      * rewrite <- Ht. digit_cases c2 Hc2; reflexivity.
      * cbn [repeat app]. now rewrite <- HDeq.
    + exists 0%nat, (c :: c2 :: D).
      split; [| repeat split; [discriminate | exact HD]].
      digit_cases c Hc; first [discriminate E | reflexivity].
Qed.

Lemma Zeros_length : List.length Ethers.Zeros = 128%nat.
Proof. apply repeat_length. Qed.

(** Padding puts zeros in front until there are more than [decimals]
    digits. *)
Lemma pad_whole_zeros (ds : list ascii) :
  exists k,
    Ethers.pad_whole 19 18 ds = (repeat "0"%char k ++ ds)%list /\
    (18 < List.length (repeat "0"%char k ++ ds))%nat.
Proof.
  cbn [Ethers.pad_whole].
  destruct (List.length ds <=? 18)%nat eqn:E.
  - assert (L : (List.length (Ethers.Zeros ++ ds) <=? 18)%nat = false).
    { apply Nat.leb_gt. rewrite length_app, Zeros_length. lia. }
    rewrite L. exists 128%nat. split; [reflexivity |].
    apply Nat.leb_gt in L. exact L.
  - exists 0%nat. split; [reflexivity |]. apply Nat.leb_gt in E. exact E.
Qed.

Lemma list_ascii_of_append (a b : string) :
  list_ascii_of_string (a ++ b) =
  (list_ascii_of_string a ++ list_ascii_of_string b)%list.
Proof. induction a as [| c a IH]; simpl; [reflexivity | now rewrite IH]. Qed.

(** The text [formatEther] gives: a sign, digits, a point, digits, with
    the value of the amount. *)
Lemma formatEther_shape (wei : Z) :
  exists whole frac : list ascii,
    Ethers.formatEther wei =
      (if wei <? 0 then "-" else "") ++
      string_of_list_ascii (whole ++ "."%char :: frac) /\
    digits whole /\ whole <> [] /\ digits frac /\ frac <> [] /\
    (List.length frac <= 18)%nat /\
    JS.digits_value (whole ++ frac) * 10 ^ 18 =
      Z.abs wei * 10 ^ Z.of_nat (List.length frac).
Proof.
  unfold Ethers.formatEther, Ethers.formatUnits. cbv zeta.
  destruct (bigint_digits (Z.abs wei) (Z.abs_nonneg wei)) as (Hds & Hne & Hval).
  set (ds := list_ascii_of_string (JS.bigint_toString (Z.abs wei))) in *.
  destruct (pad_whole_zeros ds) as (k & -> & Hlen).
  set (p := (repeat "0"%char k ++ ds)%list) in *.
  assert (Hp : digits p) by (apply digits_app; split; [apply digits_zeros | exact Hds]).
  assert (Hpv : JS.digits_value p = Z.abs wei).
  { unfold p. rewrite digits_value_app, digits_value_zeros. lia. }
  set (index := (List.length p - 18)%nat).
  set (W := firstn index p). set (F := skipn index p).
  assert (HWF : p = (W ++ F)%list) by (symmetry; apply firstn_skipn).
  assert (HF : List.length F = 18%nat) by (unfold F, index; rewrite length_skipn; lia).
  assert (HW : W <> []).
  { intros HW0. assert (L : List.length W = index) by (apply firstn_length_le; unfold index; lia).
    rewrite HW0 in L. simpl in L. unfold index in L. lia. }
  rewrite HWF in Hp. apply digits_app in Hp. destruct Hp as [HdW HdF].
  destruct (trim_whole_digits W F HdW HW) as (j & W' & -> & HWeq & HW' & HdW').
  rewrite trims_agree.
  replace (rev (W' ++ "."%char :: F)) with (rev F ++ "."%char :: rev W')%list
    by (rewrite rev_app_distr; cbn [rev]; now rewrite <- app_assoc).
  assert (HrF : rev F <> []).
  { intros H0. apply (f_equal (@List.length ascii)) in H0.
    rewrite length_rev, HF in H0. discriminate H0. }
  destruct (trim_whole_digits (rev F) (rev W') (digits_rev F HdF) HrF)
    as (j2 & F2 & -> & HFeq & HF2 & HdF2).
  replace (rev (F2 ++ "."%char :: rev W')) with (W' ++ "."%char :: rev F2)%list
    by (rewrite rev_app_distr; cbn [rev]; rewrite rev_involutive, <- app_assoc; reflexivity).
  exists W', (rev F2).
  assert (HFsplit : F = (rev F2 ++ repeat "0"%char j2)%list).
  { rewrite <- (rev_involutive F), HFeq, rev_app_distr, rev_zeros. reflexivity. }
  assert (Hl : (List.length (rev F2) + j2 = 18)%nat).
  { rewrite <- HF, HFsplit, length_app, repeat_length. reflexivity. }
  split; [reflexivity |].
  split; [exact HdW' |]. split; [exact HW' |].
  split; [apply digits_rev; exact HdF2 |].
  split; [intros H0; apply HF2; rewrite <- (rev_involutive F2), H0; reflexivity |].
  split; [lia |].
  rewrite <- Hpv, HWF, HWeq, HFsplit.
  rewrite <- app_assoc, (digits_value_app (repeat "0"%char j)), digits_value_zeros.
  rewrite app_assoc, (digits_value_app (W' ++ rev F2)), digits_value_zeros.
  rewrite repeat_length.
  replace 18 with (Z.of_nat (List.length (rev F2)) + Z.of_nat j2) at 1 by lia.
  rewrite Z.pow_add_r by lia.
  rewrite !length_app, repeat_length. 
  set (dv := JS.digits_value (W' ++ rev F2)).
  rewrite Z.mul_0_l. ring.
Qed.

(** X17.  [formatEther] loses nothing: for every amount the text is an
    optional minus sign, at least one digit, a point and one to eighteen
    digits, and the decimal it spells is exactly the amount divided by
    10^18. *)
Theorem formatEther_is_lossless (wei : Z) :
  exists whole frac : list ascii,
    Ethers.formatEther wei =
      (if wei <? 0 then "-" else "") ++
      string_of_list_ascii (whole ++ "."%char :: frac) /\
    digits whole /\ whole <> [] /\ digits frac /\ frac <> [] /\
    (List.length frac <= 18)%nat /\
    JS.digits_value (whole ++ frac) * 10 ^ 18 =
      Z.abs wei * 10 ^ Z.of_nat (List.length frac).
Proof. exact (formatEther_shape wei). Qed.

(** X18.  The view's [parseFloat] always gets a number from a stored
    amount: the text [formatEther] made is read back as the binary64
    value nearest to the decimal it spells, never as NaN and never
    outside what [JS.parseFloat] models. *)
Theorem amount_text_parses (wei : Z) :
  exists whole frac : list ascii,
    Ethers.formatEther wei =
      (if wei <? 0 then "-" else "") ++
      string_of_list_ascii (whole ++ "."%char :: frac) /\
    JS.digits_value (whole ++ frac) * 10 ^ 18 =
      Z.abs wei * 10 ^ Z.of_nat (List.length frac) /\
    JS.parseFloat (Ethers.formatEther wei) =
      Some (JS.nearest_quotient (wei <? 0) (JS.digits_value (whole ++ frac))
                                (10 ^ Z.of_nat (List.length frac))).
Proof.
  destruct (formatEther_shape wei)
    as (whole & frac & Htext & Hdw & Hw & Hdf & Hf & _ & Hval).
  exists whole, frac. split; [exact Htext |]. split; [exact Hval |].
  rewrite Htext, parseFloat_eqn. cbv zeta.
  rewrite list_ascii_of_append, list_ascii_of_string_of_list_ascii.
  assert (Hspan : span_digits (whole ++ "."%char :: frac) = (whole, "."%char :: frac))
    by (apply span_digits_dot; exact Hdw).
  assert (Hne : (whole ++ frac)%list <> []).
  { destruct whole; [contradiction | discriminate]. }
  destruct (wei <? 0).
  - cbn [list_ascii_of_string app]. rewrite Hspan, (span_digits_all frac Hdf).
    destruct (whole ++ frac)%list; [contradiction | reflexivity].
  - cbn [list_ascii_of_string app].
    destruct whole as [| c whole']; [contradiction |].
    assert (Hc : JS.is_digit c = true).
    { unfold digits in Hdw. simpl in Hdw. now apply andb_prop in Hdw. }
    replace (match ((c :: whole') ++ "."%char :: frac)%list with
             | "-"%char :: r => (true, r)
             | "+"%char :: r => (false, r)
             | _ => (false, ((c :: whole') ++ "."%char :: frac)%list)
             end)
      with (false, ((c :: whole') ++ "."%char :: frac)%list)
      by (digit_cases c Hc; reflexivity).
    rewrite Hspan, (span_digits_all frac Hdf).
    destruct ((c :: whole') ++ frac)%list; [contradiction | reflexivity].
Qed.

(* ===================================================================== *)
(** * The life of the stored Snapshot *)
(* ===================================================================== *)

(** X19.  Nothing ever clears the stored Snapshot: each of the three
    workflows leaves [reputationData] as it was unless it publishes, so a
    session that holds a Snapshot holds one afterwards. *)
Theorem snapshot_is_never_cleared
    (env : Env) (address : option Address) (contractsObj : option Contracts)
    (s : Session) (h : Handler) :
  let r := loadUserData env address contractsObj s in
  let r' := click env h s in
  (published (events r) = false -> reputationData (final r) = reputationData s) /\
  (published (events r') = false -> reputationData (final r') = reputationData s) /\
  (reputationData s <> None ->
   reputationData (final r) <> None /\ reputationData (final r') <> None).
Proof.
  cbv zeta.
  assert (A : (published (events (loadUserData env address contractsObj s)) = false ->
               reputationData (final (loadUserData env address contractsObj s))
               = reputationData s) /\
              (reputationData s <> None ->
               reputationData (final (loadUserData env address contractsObj s))
               <> None)).
  { unfold_run. split_answers; simpl; split; intros H;
      first [reflexivity | discriminate | exact H]. }
  assert (B : (published (events (click env h s)) = false ->
               reputationData (final (click env h s)) = reputationData s) /\
              (reputationData s <> None ->
               reputationData (final (click env h s)) <> None)).
  { destruct h; unfold click; unfold_run; split_answers; simpl; split; intros H;
      first [reflexivity | discriminate | exact H]. }
  destruct A as [A1 A2], B as [B1 B2].
  repeat split; auto.
Qed.

(** X20.  Connecting another account does not discard the Snapshot of
    the one before: when the connection goes through and the aggregation
    for the new account publishes nothing (no reputation, or a failed
    read), the session has the new identity and still the old Snapshot. *)
Theorem reconnect_keeps_the_old_snapshot
    (env : Env) (s : Session) (accounts : list Address) (g : Signer) :
  window_ethereum env = Some true ->
  on_eth_requestAccounts env = Normal accounts ->
  on_getSigner env = Normal g ->
  aggregation_succeeds env (hd_error accounts) = false ->
  final (connectWallet env s) =
  mkSession (hd_error accounts) (Some BrowserProvider) (Some g)
            (Some (bindings g)) (reputationData s) false.
Proof.
  intros Hw Ha Hg Hagg.
  rewrite (connectWallet_granted env s accounts g Hw Ha Hg). cbn [final].
  destruct (loadUserData_final env (hd_error accounts) (bindings g)
              (mkSession (hd_error accounts) (Some BrowserProvider) (Some g)
                         (Some (bindings g)) (reputationData s) true))
    as [_ Hno].
  rewrite (Hno Hagg). reflexivity.
Qed.

Lemma reconnect_keeps_the_old_snapshot_witness :
  final (connectWallet newcomer_env
           (with_reputationData connected_session (Some stored_snapshot))) =
  mkSession (hd_error [user]) (Some BrowserProvider) (Some JsonRpcSigner)
            (Some (bindings JsonRpcSigner))
            (reputationData
               (with_reputationData connected_session (Some stored_snapshot)))
            false.
Proof.
  apply (reconnect_keeps_the_old_snapshot newcomer_env
           (with_reputationData connected_session (Some stored_snapshot))
           [user] JsonRpcSigner);
    reflexivity.
Defined.
